(** * Safe Walk: the filter / yearly-aggregate / linear-projection core

    A shallow embedding of the data-shaping code of the Safe Walk
    dashboards ([app.py] and [modernUI.py]) and the properties of it that
    the specification states.

    Conventions.
    - A pandas [DataFrame] is a list of column names and a list of rows;
      a missing cell ([NaT], [NaN], [<NA>]) is [None].
    - Integers ([Int64] years, group sizes) are [Z]; no arithmetic of the
      scripts can overflow them.
    - [np.polyfit] and the evaluation of the fitted line work in binary64.
      [ModernUI.pred_2026_binary64] is the projection as the script
      computes it: the result of [np.polyfit], a routine of numpy, is a
      parameter, and the evaluation at 2026 is done on doubles.
      [Numpy.polyfit1] is the least-squares line itself, over the
      rationals [Q], and [ModernUI.pred_2026] the projection read in
      that exact arithmetic; [Spec.accurate] says when the two agree.
      [round] is Python's round-half-to-even. *)

From Stdlib Require Import PrimFloat FloatOps SpecFloat.
From Stdlib Require Import ZArith QArith Qround String List Bool Lia Lqa Permutation.
Import ListNotations.
Open Scope Z_scope.

(* ================================================================== *)
(** * The fragment of pandas and Python the scripts rely on *)

Module Pandas.

(** A parsed [Date]; the scripts only read [.dt.year]. *)
Record Timestamp := mkTimestamp {
  dt_year : Z;
  dt_month : Z;
  dt_day : Z
}.

(** One line of [crimes.csv] as [pd.read_csv] delivers it. *)
Record CsvRow := mkCsvRow {
  csv_Date : option string;
  csv_Year : option Z;
  csv_Primary_Type : option string
}.

Record Csv := mkCsv {
  csv_columns : list string;
  csv_rows : list CsvRow
}.

(** One row of the loaded frame.  [label] is the index label, which
    boolean indexing keeps. *)
Record Row := mkRow {
  label : nat;
  Date : option Timestamp;
  Year : option Z;
  Primary_Type : option string
}.

Record DataFrame := mkDataFrame {
  columns : list string;
  rows : list Row
}.

(** [name in df.columns] *)
Definition has_column (name : string) (cols : list string) : bool :=
  existsb (String.eqb name) cols.

(** [df[name] = ...]: an existing column is overwritten in place, a new
    one is appended. *)
Definition set_column (name : string) (cols : list string) : list string :=
  if has_column name cols then cols else cols ++ [name].

(** [len(df)] *)
Definition len (df : DataFrame) : Z := Z.of_nat (length (rows df)).

(** [df.copy()]: a new frame with the same content. *)
Definition copy (df : DataFrame) : DataFrame :=
  {| columns := columns df; rows := rows df |}.

(** [series >= k] and [series <= k] on a nullable integer column: a
    missing value compares to [<NA>]. *)
Definition ge_scalar (v : option Z) (k : Z) : option bool :=
  match v with
  | Some z => Some (k <=? z)
  | None => None
  end.

Definition le_scalar (v : option Z) (k : Z) : option bool :=
  match v with
  | Some z => Some (z <=? k)
  | None => None
  end.

(** [a & b] on nullable booleans (Kleene logic). *)
Definition and_na (a b : option bool) : option bool :=
  match a, b with
  | Some false, _ => Some false
  | _, Some false => Some false
  | Some true, Some true => Some true
  | _, _ => None
  end.

(** Boolean indexing treats [<NA>] in the mask as [False]. *)
Definition mask_true (m : option bool) : bool :=
  match m with
  | Some b => b
  | None => false
  end.

(** [df[mask]] *)
Definition getitem_mask (df : DataFrame) (mask : Row -> option bool) : DataFrame :=
  {| columns := columns df;
     rows := filter (fun r => mask_true (mask r)) (rows df) |}.

(** [series.isin(values)]: a missing label is in no list of labels. *)
Definition isin (v : option string) (values : list string) : bool :=
  match v with
  | Some s => existsb (String.eqb s) values
  | None => false
  end.

(** Truth value of a Python list. *)
Definition truthy {A : Type} (l : list A) : bool :=
  match l with
  | [] => false
  | _ :: _ => true
  end.

(** [groupby(key).size()]: one entry per distinct key, in ascending key
    order, rows with a missing key dropped.  [bump] records one more row
    under key [y]. *)
Fixpoint bump (y : Z) (acc : list (Z * Z)) : list (Z * Z) :=
  match acc with
  | [] => [(y, 1)]
  | (k, c) :: rest =>
      match y ?= k with
      | Lt => (y, 1) :: (k, c) :: rest
      | Eq => (k, c + 1) :: rest
      | Gt => (k, c) :: bump y rest
      end
  end.

Fixpoint groupby_size (keys : list (option Z)) : list (Z * Z) :=
  match keys with
  | [] => []
  | None :: rest => groupby_size rest
  | Some y :: rest => bump y (groupby_size rest)
  end.

(** [sort_values(key)]: a stable ascending sort on the key column. *)
Fixpoint insert_by_key (e : Z * Z) (l : list (Z * Z)) : list (Z * Z) :=
  match l with
  | [] => [e]
  | h :: t => if fst e <=? fst h then e :: h :: t else h :: insert_by_key e t
  end.

Definition sort_values (l : list (Z * Z)) : list (Z * Z) :=
  fold_right insert_by_key [] l.

(** [df.tail(n)] *)
Definition tail {A : Type} (n : nat) (l : list A) : list A :=
  skipn (length l - n) l.

(** [series.dropna().unique()] in order of first appearance. *)
Fixpoint unique (l : list string) : list string :=
  match l with
  | [] => []
  | s :: rest => s :: filter (fun t => negb (String.eqb s t)) (unique rest)
  end.

Fixpoint dropna {A : Type} (l : list (option A)) : list A :=
  match l with
  | [] => []
  | Some a :: rest => a :: dropna rest
  | None :: rest => dropna rest
  end.

(** [sorted(strings)]: ascending by code point. *)
Fixpoint insert_string (s : string) (l : list string) : list string :=
  match l with
  | [] => [s]
  | h :: t => if String.leb s h then s :: h :: t else h :: insert_string s t
  end.

Definition sorted (l : list string) : list string :=
  fold_right insert_string [] l.

(** [series.min()] and [series.max()] skip missing values; [None] when
    there is no value at all. *)
Definition series_min (l : list (option Z)) : option Z :=
  match dropna l with
  | [] => None
  | z :: rest => Some (fold_left Z.min rest z)
  end.

Definition series_max (l : list (option Z)) : option Z :=
  match dropna l with
  | [] => None
  | z :: rest => Some (fold_left Z.max rest z)
  end.

(** A Python expression that may raise: its value, or the name of the
    exception. *)
Inductive Outcome (A : Type) : Type :=
| Done (a : A)
| Raised (exn : string).

Arguments Done {A} a.
Arguments Raised {A} exn.

(** What [pd.read_csv(path)] does: the content of the file,
    [FileNotFoundError], or another exception (a file that is empty,
    not readable, not a table). *)
Inductive ReadResult : Type :=
| Read (csv : Csv)
| FileNotFound
| ReadError (exn : string).

(** [df.head(n)] and [list[:n]] *)
Definition head {A : Type} (n : nat) (l : list A) : list A := firstn n l.


(** [series[0]] on a series with a [RangeIndex]; [None] is [KeyError]. *)
Definition getitem_0 {A : Type} (l : list A) : option A :=
  match l with
  | [] => None
  | a :: _ => Some a
  end.

(** [df.empty]: no row or no column. *)
Definition empty (df : DataFrame) : bool :=
  match rows df, columns df with
  | [], _ => true
  | _, [] => true
  | _, _ => false
  end.

(** Number of cells of a column that hold the label [s]. *)
Definition count_label (s : string) (l : list (option string)) : nat :=
  length (filter (fun v => match v with
                           | Some t => String.eqb s t
                           | None => false
                           end) l).

(** [series.nunique()]: the number of distinct values, missing ones left
    out. *)
Definition nunique (l : list (option string)) : Z :=
  Z.of_nat (length (unique (dropna l))).

(** [series.mode()]: the values that occur most often, missing ones left
    out, in ascending order. *)
Definition mode (l : list (option string)) : list string :=
  let labels := unique (dropna l) in
  let top := fold_right Nat.max 0%nat (map (fun s => count_label s l) labels) in
  sorted (filter (fun s => Nat.eqb (count_label s l) top) labels).

End Pandas.

(* ================================================================== *)
(** * The fragment of numpy the projection relies on *)

Module Numpy.

Definition zsum (l : list Z) : Z := fold_right Z.add 0 l.

Definition dot (x y : list Z) : Z :=
  zsum (map (fun p => fst p * snd p) (combine x y)).

(** The line [np.polyfit(x, y, 1)] approximates: the coefficients
    [(slope, intercept)] of the least-squares line through the points,
    highest degree first, from the normal equations, in exact
    arithmetic.  What numpy returns is this line up to binary64
    rounding. *)
Definition polyfit1 (x y : list Z) : Q * Q :=
  let n := Z.of_nat (length x) in
  let sx := zsum x in
  let sy := zsum y in
  let sxx := dot x x in
  let sxy := dot x y in
  let a := (inject_Z (n * sxy - sx * sy) / inject_Z (n * sxx - sx * sx))%Q in
  let b := ((inject_Z sy - a * inject_Z sx) / inject_Z n)%Q in
  (a, b).

(** [round(v)]: to the nearest integer, a tie to the even neighbour. *)
Definition round (v : Q) : Z :=
  let f := Qfloor v in
  match ((v - inject_Z f) ?= (1 # 2))%Q with
  | Lt => f
  | Gt => f + 1
  | Eq => if Z.even f then f else f + 1
  end.

(** ** binary64 *)

(** The number a double stands for; [None] for NaN and the infinities. *)
Definition float_value (f : float) : option Q :=
  match Prim2SF f with
  | S754_zero _ => Some 0%Q
  | S754_finite s m e =>
      Some ((if s then - inject_Z (Z.pos m) else inject_Z (Z.pos m)) * Qpower 2 e)%Q
  | S754_infinity _ => None
  | S754_nan => None
  end.

(** [round(x)] on a double, an integer: NaN and the infinities have
    none. *)
Definition round_float (f : float) : Pandas.Outcome Z :=
  match Prim2SF f with
  | S754_nan => Pandas.Raised "ValueError"
  | S754_infinity _ => Pandas.Raised "OverflowError"
  | _ =>
      match float_value f with
      | Some v => Pandas.Done (round v)
      | None => Pandas.Raised "ValueError"
      end
  end.

End Numpy.

(* ================================================================== *)
(** * modernUI.py *)

Module ModernUI.
Import Pandas Numpy.

Section Loader.

(** The file system seen by [pd.read_csv] ([None]: [FileNotFoundError])
    and the date parser behind [pd.to_datetime]. *)
Variable read_csv : string -> option Csv.
Variable parse_datetime : string -> option Timestamp.

(** [pd.to_datetime(series, errors='coerce')] on one cell: a missing cell
    or a text that does not parse becomes [NaT]. *)
Definition to_datetime (cell : option string) : option Timestamp :=
  match cell with
  | Some s => parse_datetime s
  | None => None
  end.

(** Rows of the frame, labelled by [RangeIndex] from [i]. *)
Fixpoint frame_rows (with_date : bool) (i : nat) (l : list CsvRow) : list Row :=
  match l with
  | [] => []
  | c :: rest =>
      (if with_date then
         let d := to_datetime (csv_Date c) in
         {| label := i; Date := d; Year := option_map dt_year d;
            Primary_Type := csv_Primary_Type c |}
       else
         {| label := i; Date := None; Year := csv_Year c;
            Primary_Type := csv_Primary_Type c |})
      :: frame_rows with_date (S i) rest
  end.

(** The body of the [try] of [load_crimes] / [load_data], once the file
    has been read. *)
Definition prepare (csv : Csv) : DataFrame :=
  if has_column "Date" (csv_columns csv) then
    {| columns := set_column "Year" (csv_columns csv);
       rows := frame_rows true 0 (csv_rows csv) |}
  else
    {| columns := csv_columns csv;
       rows := frame_rows false 0 (csv_rows csv) |}.

(** [load_crimes()]; [None] is [st.error(...); st.stop()]. *)
Definition load_crimes : option DataFrame :=
  let file_path := "crimes.csv"%string in
  match read_csv file_path with
  | Some csv => Some (prepare csv)
  | None => None
  end.

End Loader.

(** The sidebar: the bounds of the year slider and the options of the
    crime-type multiselect.  The values the user picks, [year_range] and
    [selected_types], are arguments of what follows.  The slider is only
    created when the frame has a [Year] column with a known year
    ([min_y] and [max_y] are then [Some]); without it [year_range] is
    never assigned and the script has no filter criteria to run with. *)
Definition min_y (df : DataFrame) : option Z := series_min (map Year (rows df)).
Definition max_y (df : DataFrame) : option Z := series_max (map Year (rows df)).

Definition types (df : DataFrame) : list string :=
  sorted (unique (dropna (map Primary_Type (rows df)))).

(** "Apply filters" *)
Definition filtered (df : DataFrame) (year_range : Z * Z)
    (selected_types : list string) : DataFrame :=
  let filtered := copy df in
  let filtered :=
    if has_column "Year" (columns filtered) then
      getitem_mask filtered
        (fun r => and_na (ge_scalar (Year r) (fst year_range))
                         (le_scalar (Year r) (snd year_range)))
    else filtered in
  let filtered :=
    if has_column "Primary Type" (columns filtered) && truthy selected_types then
      getitem_mask filtered (fun r => Some (isin (Primary_Type r) selected_types))
    else filtered in
  filtered.

(** "Prepare yearly summary for trend": the frame with the columns
    [Year] and [Total Crimes], as a list of its rows. *)
Definition yearly (filtered : DataFrame) : list (Z * Z) :=
  if has_column "Year" (columns filtered) then
    let yearly := groupby_size (map Year (rows filtered)) in
    sort_values yearly
  else [].

(** "2026 simple prediction (linear on recent 5 years)" read in exact
    arithmetic: the least-squares line itself, evaluated at 2026 without
    rounding error.  [None] is Python's [None].  [round] already returns
    an integer, which [int] leaves as it is.  The computation on doubles
    is [pred_2026_binary64] below. *)
Definition pred_2026 (yearly : list (Z * Z)) : option Z :=
  if 5 <=? Z.of_nat (length yearly) then
    let recent := tail 5 yearly in
    let x := map fst recent in
    let y := map snd recent in
    let coeffs := polyfit1 x y in
    let pred := round (fst coeffs * inject_Z 2026 + snd coeffs)%Q in
    Some (if pred <? 0 then 0 else pred)
  else None.

Section Binary64.

(** [np.polyfit(x, y, 1)] as numpy computes it: the two doubles
    [coeffs[0]] and [coeffs[1]] it returns for the arrays [x] and [y]. *)
Variable polyfit : list Z -> list Z -> float * float.

(** [coeffs[0] * 2026 + coeffs[1]] for the rows [recent], on doubles. *)
Definition line_at_2026 (recent : list (Z * Z)) : float :=
  let x := map fst recent in
  let y := map snd recent in
  let coeffs := polyfit x y in
  PrimFloat.add (PrimFloat.mul (fst coeffs) 2026%float) (snd coeffs).

(** "2026 simple prediction (linear on recent 5 years)" as the script
    computes it; [Done None] is Python's [None], and [round] raises on a
    double that is no number. *)
Definition pred_2026_binary64 (yearly : list (Z * Z)) : Outcome (option Z) :=
  if 5 <=? Z.of_nat (length yearly) then
    let recent := tail 5 yearly in
    match round_float (line_at_2026 recent) with
    | Done pred => Done (Some (if pred <? 0 then 0 else pred))
    | Raised exn => Raised exn
    end
  else Done None.

End Binary64.

(** The first summary card: [len(filtered)]. *)
Definition total_crimes (filtered : DataFrame) : Z := len filtered.

(** The values the widgets start with: the last eight years and the
    first ten crime types. *)
Definition default_year_range (df : DataFrame) : option (Z * Z) :=
  match max_y df with
  | Some m => Some (m - 7, m)
  | None => None
  end.

Definition default_types (df : DataFrame) : list string := head 10 (types df).


End ModernUI.

(* ================================================================== *)
(** * app.py *)

Module App.
Import Pandas.

Section Loader.

Variable read_csv : string -> option Csv.
Variable parse_datetime : string -> option Timestamp.

Definition possible_paths : list string :=
  [ "crimes.csv"; "archive/crimes.csv";
    "/Users/akumaresan/Downloads/archive/crimes.csv"; "data/crimes.csv" ]%string.

(** The [for] loop of [load_data]: the first path that can be read
    decides; [None] is [st.error(...); st.stop()].  The body of its [try]
    is that of [load_crimes], [ModernUI.prepare]. *)
Fixpoint load_from (paths : list string) : option DataFrame :=
  match paths with
  | [] => None
  | path :: rest =>
      match read_csv path with
      | Some csv => Some (ModernUI.prepare parse_datetime csv)
      | None => load_from rest
      end
  end.

Definition load_data : option DataFrame := load_from possible_paths.

End Loader.

Section LoaderRaising.

(** [load_data] on a file system where reading can also fail with an
    exception that is not [FileNotFoundError]: the [except] clause does
    not catch it.  [Done None] is [st.error(...); st.stop()]. *)
Variable read : string -> ReadResult.
Variable parse_datetime : string -> option Timestamp.

Fixpoint load_from_raising (paths : list string) : Outcome (option DataFrame) :=
  match paths with
  | [] => Done None
  | path :: rest =>
      match read path with
      | Read csv => Done (Some (ModernUI.prepare parse_datetime csv))
      | FileNotFound => load_from_raising rest
      | ReadError exn => Raised exn
      end
  end.

Definition load_data_raising : Outcome (option DataFrame) :=
  load_from_raising possible_paths.

End LoaderRaising.

(** A file system without other exceptions, as [load_data] takes it. *)
Definition found_or_missing (read : string -> ReadResult) (path : string)
    : option Csv :=
  match read path with
  | Read csv => Some csv
  | _ => None
  end.

(** "Apply filters" *)
Definition filtered (df : DataFrame) (year_range : Z * Z)
    (selected_types : list string) : DataFrame :=
  let filtered := copy df in
  let filtered :=
    if has_column "Year" (columns filtered) then
      getitem_mask filtered
        (fun r => and_na (ge_scalar (Year r) (fst year_range))
                         (le_scalar (Year r) (snd year_range)))
    else filtered in
  let filtered :=
    if has_column "Primary Type" (columns filtered) && truthy selected_types then
      getitem_mask filtered (fun r => Some (isin (Primary_Type r) selected_types))
    else filtered in
  filtered.

(** The frame behind "Crimes per year"; [None] when the chart is
    skipped. *)
Definition yearly (filtered : DataFrame) : option (list (Z * Z)) :=
  if has_column "Year" (columns filtered) then
    Some (groupby_size (map Year (rows filtered)))
  else None.

(** "Total incidents": [len(filtered)]. *)
Definition total_incidents (filtered : DataFrame) : Z := len filtered.

(** The values the widgets start with: the last six years and the first
    twelve crime types. *)
Definition default_year_range (df : DataFrame) : option (Z * Z) :=
  match ModernUI.max_y df with
  | Some m => Some (m - 5, m)
  | None => None
  end.

Definition default_types (df : DataFrame) : list string :=
  head 12 (ModernUI.types df).

(** "Most common type"; [Done None] when the frame has no
    [Primary Type] column and the card is left out. *)
Definition most_common_type (filtered : DataFrame) : Outcome (option string) :=
  if has_column "Primary Type" (columns filtered) then
    if negb (empty filtered) then
      match getitem_0 (mode (map Primary_Type (rows filtered))) with
      | Some s => Done (Some s)
      | None => Raised "KeyError"
      end
    else Done (Some "–"%string)
  else Done None.

(** "Unique crime types"; [None] is the dash. *)
Definition unique_crime_types (filtered : DataFrame) : option Z :=
  if has_column "Primary Type" (columns filtered) then
    Some (nunique (map Primary_Type (rows filtered)))
  else None.

End App.

(* ================================================================== *)
(** * app1.py *)

Module App1.
Import Pandas.

Section Loader.

Variable read_csv : string -> option Csv.
Variable parse_datetime : string -> option Timestamp.

Definition path : string := "/Users/akumaresan/Downloads/archive/crimes.csv".

(** [df.dropna(subset=['Date'])] *)
Definition dropna_Date (df : DataFrame) : DataFrame :=
  {| columns := columns df;
     rows := filter (fun r => match Date r with
                              | Some _ => true
                              | None => false
                              end) (rows df) |}.

(** [load_data()]: nothing is caught here, neither the missing file nor
    a file without a [Date] column.  [Month], [MonthName] and
    [DayOfWeek] are read off [Date] where they are used. *)
Definition load_data : Outcome DataFrame :=
  match read_csv path with
  | None => Raised "FileNotFoundError"
  | Some csv =>
      if has_column "Date" (csv_columns csv) then
        let df :=
          {| columns :=
               set_column "DayOfWeek"
                 (set_column "MonthName"
                    (set_column "Month" (set_column "Year" (csv_columns csv))));
             rows := ModernUI.frame_rows parse_datetime true 0 (csv_rows csv) |} in
        Done (dropna_Date df)
      else Raised "KeyError"
  end.

End Loader.

(** [series >= k] and [series <= k] on a float column: [NaN] compares
    false. *)
Definition ge_float (v : option Z) (k : Z) : bool :=
  match v with
  | Some z => k <=? z
  | None => false
  end.

Definition le_float (v : option Z) (k : Z) : bool :=
  match v with
  | Some z => z <=? k
  | None => false
  end.

(** "Apply filters": the columns are used without being looked for. *)
Definition filtered (df : DataFrame) (year_range : Z * Z)
    (selected_types : list string) : Outcome DataFrame :=
  if has_column "Year" (columns df) then
    let filtered :=
      getitem_mask df
        (fun r => Some (ge_float (Year r) (fst year_range) &&
                        le_float (Year r) (snd year_range))) in
    if truthy selected_types then
      if has_column "Primary Type" (columns filtered) then
        Done (getitem_mask filtered
                (fun r => Some (isin (Primary_Type r) selected_types)))
      else Raised "KeyError"
    else Done filtered
  else Raised "KeyError".

(** [series.unique()]: the values in order of first appearance, a
    missing label counted as one value. *)
Definition same_cell (a b : option string) : bool :=
  match a, b with
  | Some s, Some t => String.eqb s t
  | None, None => true
  | _, _ => false
  end.

Fixpoint unique_na (l : list (option string)) : list (option string) :=
  match l with
  | [] => []
  | v :: rest => v :: filter (fun w => negb (same_cell v w)) (unique_na rest)
  end.

Definition isna (v : option string) : bool :=
  match v with
  | Some _ => false
  | None => true
  end.

(** [sorted(df['Primary Type'].unique())]: there is no [dropna] here.  A
    missing label is a float, and ordering it against a string raises;
    with fewer than two values there is nothing to compare. *)
Definition crime_types (df : DataFrame) : Outcome (list (option string)) :=
  if has_column "Primary Type" (columns df) then
    let values := unique_na (map Primary_Type (rows df)) in
    match values with
    | [] => Done values
    | [_] => Done values
    | _ :: _ :: _ =>
        if existsb isna values then Raised "TypeError"
        else Done (map Some (sorted (dropna values)))
    end
  else Raised "KeyError".

(** "Sidebar filters": the bounds of the slider and the options of the
    multiselect.  [int] of the minimum of a column without a value, a
    NaN, raises. *)
Definition sidebar (df : DataFrame) : Outcome (Z * Z * list (option string)) :=
  if has_column "Year" (columns df) then
    match series_min (map Year (rows df)), series_max (map Year (rows df)) with
    | Some min_y, Some max_y =>
        match crime_types df with
        | Done types => Done (min_y, max_y, types)
        | Raised exn => Raised exn
        end
    | _, _ => Raised "ValueError"
    end
  else Raised "KeyError".

(** The crime types the multiselect starts with. *)
Definition default_types : list string :=
  [ "BATTERY"; "THEFT"; "ASSAULT"; "CRIMINAL DAMAGE" ]%string.

(** The script from the load to the filters; [year_range] and
    [selected_types] are what the two widgets return, which are taken to
    accept the values they start with. *)
Definition script (read_csv : string -> option Csv)
    (parse_datetime : string -> option Timestamp)
    (year_range : Z * Z) (selected_types : list string) : Outcome DataFrame :=
  match load_data read_csv parse_datetime with
  | Done df =>
      match sidebar df with
      | Done _ => filtered df year_range selected_types
      | Raised exn => Raised exn
      end
  | Raised exn => Raised exn
  end.

(** [dt.to_period('M')] as the ordinal of the monthly period, the months
    since January 1970. *)
Definition to_period_M (t : Timestamp) : Z :=
  (dt_year t - 1970) * 12 + (dt_month t - 1).

(** "Monthly aggregation": the rows [(Month, y)] of [monthly]; ordering
    by [ds], the first day of the month, is ordering by [Month]. *)
Definition monthly (filtered : DataFrame) : list (Z * Z) :=
  let monthly :=
    groupby_size (map (fun r => option_map to_period_M (Date r)) (rows filtered)) in
  sort_values monthly.

(** [len(monthly) > 12]: the Prophet model is fitted; otherwise the
    warning is shown. *)
Definition forecast_fitted (monthly : list (Z * Z)) : bool :=
  12 <? Z.of_nat (length monthly).

End App1.

(* ================================================================== *)
(** * The scripts over Python objects

    Frames are objects on a heap and the variables [df], [filtered] and
    [yearly] hold references to them.  Every pandas call the scripts make
    ([copy], boolean indexing, [groupby(...).size().reset_index(...)],
    [sort_values]) returns a new object; none of them writes to one that
    exists. *)

Module Script.
Import Pandas.

Inductive Obj :=
| Frame (d : DataFrame)
| Counts (c : list (Z * Z)).

Definition ref := nat.
Definition Heap := list Obj.

(** Computations over the heap; [None] is a Python exception. *)
Definition M (A : Type) : Type := Heap -> option (A * Heap).

Definition ret {A : Type} (a : A) : M A := fun h => Some (a, h).

Definition bind {A B : Type} (m : M A) (k : A -> M B) : M B :=
  fun h =>
    match m h with
    | Some (a, h') => k a h'
    | None => None
    end.

Notation "x <- m ;; k" := (bind m (fun x => k))
  (at level 61, m at next level, right associativity).

Definition alloc (o : Obj) : M ref :=
  fun h => Some (length h, h ++ [o]).

Definition frame_at (p : ref) : M DataFrame :=
  fun h =>
    match nth_error h p with
    | Some (Frame d) => Some (d, h)
    | _ => None
    end.

Definition counts_at (p : ref) : M (list (Z * Z)) :=
  fun h =>
    match nth_error h p with
    | Some (Counts c) => Some (c, h)
    | _ => None
    end.

Definition copy (p : ref) : M ref :=
  d <- frame_at p ;; alloc (Frame (Pandas.copy d)).

Definition getitem_mask (p : ref) (mask : Row -> option bool) : M ref :=
  d <- frame_at p ;; alloc (Frame (Pandas.getitem_mask d mask)).

Definition groupby_Year_size (p : ref) : M ref :=
  d <- frame_at p ;; alloc (Counts (groupby_size (map Year (rows d)))).

Definition sort_values (p : ref) : M ref :=
  c <- counts_at p ;; alloc (Counts (Pandas.sort_values c)).

(** "Apply filters" *)
Definition apply_filters (df : ref) (year_range : Z * Z)
    (selected_types : list string) : M ref :=
  filtered <- copy df ;;
  d <- frame_at filtered ;;
  filtered <-
    (if has_column "Year" (columns d) then
       getitem_mask filtered
         (fun r => and_na (ge_scalar (Year r) (fst year_range))
                          (le_scalar (Year r) (snd year_range)))
     else ret filtered) ;;
  d <- frame_at filtered ;;
  filtered <-
    (if has_column "Primary Type" (columns d) && truthy selected_types then
       getitem_mask filtered (fun r => Some (isin (Primary_Type r) selected_types))
     else ret filtered) ;;
  ret filtered.

(** "Prepare yearly summary for trend" *)
Definition prepare_yearly (filtered : ref) : M ref :=
  d <- frame_at filtered ;;
  if has_column "Year" (columns d) then
    yearly <- groupby_Year_size filtered ;;
    yearly <- sort_values yearly ;;
    ret yearly
  else alloc (Counts []).

(** Both steps; the result is the pair of the variables [filtered] and
    [yearly]. *)
Definition filter_aggregate (df : ref) (year_range : Z * Z)
    (selected_types : list string) : M (ref * ref) :=
  filtered <- apply_filters df year_range selected_types ;;
  yearly <- prepare_yearly filtered ;;
  ret (filtered, yearly).

(** [h'] is [h] with new objects allocated after it. *)
Definition grows (h h' : Heap) : Prop := exists t, h' = h ++ t.

End Script.

(* ================================================================== *)
(** * Vocabulary of the specification *)

Module Spec.
Import Pandas.

(** The count a yearly aggregate gives for year [y], if it has one. *)
Definition lookup (y : Z) (agg : list (Z * Z)) : option Z :=
  option_map snd (find (fun e => fst e =? y) agg).

(** Number of records of year [y]. *)
Fixpoint count_year (y : Z) (keys : list (option Z)) : Z :=
  match keys with
  | [] => 0
  | Some k :: rest => (if k =? y then 1 else 0) + count_year y rest
  | None :: rest => count_year y rest
  end.

(** Years strictly increasing from one entry to the next. *)
Fixpoint ascending (agg : list (Z * Z)) : Prop :=
  match agg with
  | [] => True
  | e :: rest =>
      match rest with
      | [] => True
      | h :: _ => fst e < fst h
      end /\ ascending rest
  end.

(** A record has a parsed timestamp: its year is known. *)
Definition parseable (r : Row) : bool :=
  match Year r with
  | Some _ => true
  | None => false
  end.

(** A record has a crime-type label. *)
Definition labelled (r : Row) : bool :=
  match Primary_Type r with
  | Some _ => true
  | None => false
  end.

(** The filter criteria in the words of the specification: the year lies
    in the inclusive range and the crime type is one of the allowed
    labels, an empty set of labels allowing every record. *)
Definition in_year_range (year_range : Z * Z) (r : Row) : bool :=
  match Year r with
  | Some y => (fst year_range <=? y) && (y <=? snd year_range)
  | None => false
  end.

Definition type_allowed (allowed : list string) (r : Row) : bool :=
  match allowed with
  | [] => true
  | _ :: _ =>
      match Primary_Type r with
      | Some t => if in_dec string_dec t allowed then true else false
      | None => false
      end
  end.

Definition meets (year_range : Z * Z) (allowed : list string) (r : Row) : bool :=
  in_year_range year_range r && type_allowed allowed r.

(** The distinct years of a collection. *)
Definition distinct_years (rs : list Row) : list Z :=
  nodup Z.eq_dec (dropna (map Year rs)).

(** Records of year [y]. *)
Definition of_year (y : Z) (r : Row) : bool :=
  match Year r with
  | Some k => k =? y
  | None => false
  end.

(** The sum of squared residuals of the line [a * x + b] on the points,
    the quantity a least-squares fit minimises. *)
Definition sse (a b : Q) (points : list (Z * Z)) : Q :=
  fold_right Qplus 0%Q
    (map (fun p => let r := (inject_Z (snd p) - (a * inject_Z (fst p) + b))%Q in
                   (r * r)%Q)
         points).

(** The same quantity from the sums of the points: their number [n] and
    the sums of [x], [y], [x * x], [x * y] and [y * y]. *)
Definition sse_of_sums (n sx sy sxx sxy syy a b : Q) : Q :=
  (syy - 2 * a * sxy - 2 * b * sy + a * a * sxx + 2 * a * b * sx + n * (b * b))%Q.

(** [n * sum (x * x) - (sum x) ^ 2], the denominator of the slope. *)
Definition spread (x : list Z) : Z :=
  Z.of_nat (length x) * Numpy.dot x x - Numpy.zsum x * Numpy.zsum x.

(** The value at [target] of the least-squares line through the points
    [(year, count)]. *)
Definition fitted_value (points : list (Z * Z)) (target : Z) : Q :=
  let coeffs := Numpy.polyfit1 (map fst points) (map snd points) in
  (fst coeffs * inject_Z target + snd coeffs)%Q.

(** The clamp of the projection. *)
Definition clamp (p : Z) : Z := Z.max 0 p.

(** The last year of a yearly summary. *)
Definition latest_year (agg : list (Z * Z)) : Z := fst (last agg (0, 0)).

(** The records kept by the full-range, all-types selection: a known
    year and, once some crime type is on offer, a crime-type label. *)
Definition kept_by_full_selection (offered : list string) (r : Row) : bool :=
  parseable r && (labelled r || negb (truthy offered)).

(** numpy is accurate on the points: the double the script computes for
    2026 is a number less than 1/2 away from the value of the
    least-squares line. *)
Definition accurate (polyfit : list Z -> list Z -> float * float)
    (points : list (Z * Z)) : Prop :=
  exists v : Q,
    Numpy.float_value (ModernUI.line_at_2026 polyfit points) = Some v /\
    (v - fitted_value points 2026 < 1 # 2)%Q /\
    (fitted_value points 2026 - v < 1 # 2)%Q.

(** Labels in ascending order from one to the next. *)
Fixpoint labels_ascending (l : list string) : Prop :=
  match l with
  | [] => True
  | s :: rest =>
      match rest with
      | [] => True
      | t :: _ => String.leb s t = true
      end /\ labels_ascending rest
  end.

(** What the filters ask of a record in a frame with the given columns:
    a filter whose column is not there asks nothing. *)
Definition passes (cols : list string) (year_range : Z * Z)
    (allowed : list string) (r : Row) : bool :=
  (if has_column "Year" cols then in_year_range year_range r else true) &&
  (if has_column "Primary Type" cols then type_allowed allowed r else true).

End Spec.

(* ================================================================== *)
(** * Sample data *)

Module Examples.
Import Pandas.

Definition jan_2020 : Timestamp := {| dt_year := 2020; dt_month := 1; dt_day := 5 |}.
Definition mar_2021 : Timestamp := {| dt_year := 2021; dt_month := 3; dt_day := 17 |}.

Definition crimes_columns : list string :=
  [ "Date"; "Primary Type"; "Year" ]%string.

Definition theft_2020 : Row :=
  {| label := 1; Date := Some jan_2020; Year := Some 2020;
     Primary_Type := Some "THEFT"%string |}.

Definition theft_2021 : Row :=
  {| label := 1; Date := Some mar_2021; Year := Some 2021;
     Primary_Type := Some "THEFT"%string |}.

(** A record whose crime type is missing. *)
Definition unlabelled_2020 : Row :=
  {| label := 0; Date := Some jan_2020; Year := Some 2020;
     Primary_Type := None |}.

(** A record whose date did not parse. *)
Definition undated_theft : Row :=
  {| label := 0; Date := None; Year := None;
     Primary_Type := Some "THEFT"%string |}.

Definition df_unlabelled : DataFrame :=
  {| columns := crimes_columns; rows := [unlabelled_2020; theft_2021] |}.

Definition df_undated : DataFrame :=
  {| columns := crimes_columns; rows := [undated_theft; theft_2020] |}.

(** The same two records before loading, and a parser that accepts the
    one date. *)
Definition csv_undated : Csv :=
  {| csv_columns := [ "Date"; "Primary Type" ]%string;
     csv_rows :=
       [ {| csv_Date := Some "not a date"%string; csv_Year := None;
            csv_Primary_Type := Some "THEFT"%string |};
         {| csv_Date := Some "01/05/2020 10:00:00 AM"%string; csv_Year := None;
            csv_Primary_Type := Some "THEFT"%string |} ] |}.

Definition parse_sample (s : string) : option Timestamp :=
  if String.eqb s "01/05/2020 10:00:00 AM" then Some jan_2020 else None.

(** Yearly summaries. *)
Definition rising : list (Z * Z) :=
  [ (2020, 100); (2021, 110); (2022, 120); (2023, 130); (2024, 140) ].

Definition rising_early : list (Z * Z) :=
  [ (2011, 100); (2012, 110); (2013, 120); (2014, 130); (2015, 140) ].


Definition uneven : list (Z * Z) :=
  [ (2018, 7); (2019, 3); (2020, 4); (2021, 4); (2022, 5); (2023, 5); (2024, 6) ].

(** Records of seven years, not in order of year. *)
Definition record_of (i : nat) (y : Z) : Row :=
  {| label := i; Date := Some {| dt_year := y; dt_month := 6; dt_day := 1 |};
     Year := Some y; Primary_Type := Some "THEFT"%string |}.

Definition seven_years : list Row :=
  map (fun p => record_of (fst p) (snd p))
    (combine (seq 0 34)
       [ 2022; 2018; 2024; 2018; 2019; 2023; 2018; 2020; 2021; 2018; 2022; 2024;
         2019; 2018; 2020; 2024; 2023; 2018; 2021; 2022; 2019; 2023; 2024; 2020;
         2021; 2022; 2018; 2023; 2024; 2020; 2021; 2022; 2024; 2023 ]).

(** Records without a crime type only. *)
Definition df_no_label : DataFrame :=
  {| columns := crimes_columns; rows := [unlabelled_2020] |}.

(** A frame of the seven-year records. *)
Definition df_seven_years : DataFrame :=
  {| columns := crimes_columns; rows := seven_years |}.

(** A file system with the data file in the [data] folder only. *)
Definition only_in_data (path : string) : option Csv :=
  if String.eqb path "data/crimes.csv" then Some csv_undated else None.

(** A file system with the data file where [app1.py] looks for it. *)
Definition in_downloads (path : string) : option Csv :=
  if String.eqb path "/Users/akumaresan/Downloads/archive/crimes.csv"
  then Some csv_undated else None.

(** Answers of [np.polyfit]: the lines through [rising] and
    [rising_early], which doubles hold exactly, and a line whose
    coefficients doubles only approximate. *)
Definition polyfit_rising (x y : list Z) : float * float :=
  (10%float, (-20100)%float).

Definition polyfit_rising_early (x y : list Z) : float * float :=
  (10%float, (-20010)%float).

Definition polyfit_inexact (x y : list Z) : float * float :=
  (0x1.999999999999ap-5%float, (-0x1.8f33333333333p+6)%float).

(** A double just below 3/2 as the value at 2026. *)
Definition polyfit_below_tie (x y : list Z) : float * float :=
  (0%float, 0x1.7ffffffffffc0p+0%float).

(** Yearly counts whose least-squares line is at 3/2 in 2026. *)
Definition halfway : list (Z * Z) :=
  [ (2016, 1); (2018, 1); (2020, 1); (2022, 2); (2024, 1) ].

(** A file system where the first path holds a file that cannot be
    read as a table, and one where that path is missing. *)
Definition unreadable_first (path : string) : ReadResult :=
  if String.eqb path "crimes.csv" then ReadError "EmptyDataError"
  else if String.eqb path "data/crimes.csv" then Read csv_undated
  else FileNotFound.

(** A file with the four crime types app1.py preselects and a record
    whose date does not parse, where app1.py looks for it. *)
Definition csv_four_types : Csv :=
  {| csv_columns := [ "Date"; "Primary Type" ]%string;
     csv_rows :=
       map (fun t => {| csv_Date := Some "01/05/2020 10:00:00 AM"%string;
                        csv_Year := None; csv_Primary_Type := Some t |})
           App1.default_types
       ++ [ {| csv_Date := Some "not a date"%string; csv_Year := None;
               csv_Primary_Type := None |} ] |}.

Definition four_types_in_downloads (path : string) : option Csv :=
  if String.eqb path "/Users/akumaresan/Downloads/archive/crimes.csv"
  then Some csv_four_types else None.

(** A heap that holds the loaded frame at reference [0]. *)
Definition heap_undated : Script.Heap := [ Script.Frame df_undated ].

End Examples.

(* ================================================================== *)
(** * Facts about [groupby(...).size()] and [sort_values] *)

Section GroupBy.
Import Pandas Numpy Spec.

Lemma ascending_tail e agg : ascending (e :: agg) -> ascending agg.
Proof. simpl. tauto. Qed.

Lemma ascending_head_lt e agg :
  ascending (e :: agg) -> forall h, In h agg -> fst e < fst h.
Proof.
  revert e. induction agg as [|a agg IH]; intros e Hs h Hin.
  - destruct Hin.
  - destruct Hs as [Hlt Hs]. destruct Hin as [<-|Hin]; [exact Hlt|].
    specialize (IH a Hs h Hin). lia.
Qed.

Lemma lookup_absent y agg :
  (forall h, In h agg -> fst h <> y) -> lookup y agg = None.
Proof.
  unfold lookup. induction agg as [|a agg IH]; intros H; [reflexivity|].
  simpl. destruct (Z.eqb_spec (fst a) y) as [E|_].
  - exfalso. apply (H a); [now left|exact E].
  - apply IH. intros h Hh. apply H. now right.
Qed.

Lemma bump_head y agg :
  exists e rest, bump y agg = e :: rest /\
    (fst e = y \/ exists c rest', agg = (fst e, c) :: rest').
Proof.
  destruct agg as [|[k c] rest]; simpl.
  - eexists _, _. split; [reflexivity|]. now left.
  - destruct (y ?= k) eqn:E.
    + apply Z.compare_eq in E. subst k. eexists _, _. split; [reflexivity|]. now left.
    + eexists _, _. split; [reflexivity|]. now left.
    + eexists _, _. split; [reflexivity|]. right. simpl. eauto.
Qed.

Lemma bump_ascending y agg : ascending agg -> ascending (bump y agg).
Proof.
  induction agg as [|[k c] rest IH]; intros Hs; simpl.
  - auto.
  - destruct (y ?= k) eqn:E.
    + exact Hs.
    + rewrite Z.compare_lt_iff in E. split; [exact E|exact Hs].
    + rewrite Z.compare_gt_iff in E. destruct Hs as [Hh Hs]. split; [|now apply IH].
      destruct (bump_head y rest) as (e & r & -> & [He | (c' & r' & ->)]).
      * simpl. lia.
      * exact Hh.
Qed.

Lemma groupby_size_ascending keys : ascending (groupby_size keys).
Proof.
  induction keys as [|[y|] keys IH]; simpl; auto using bump_ascending.
Qed.

Lemma lookup_bump_same y agg :
  ascending agg ->
  lookup y (bump y agg) =
    Some (match lookup y agg with Some c => c + 1 | None => 1 end).
Proof.
  unfold lookup. induction agg as [|[k c] rest IH]; intros Hs; simpl.
  - now rewrite Z.eqb_refl.
  - destruct (y ?= k) eqn:E.
    + apply Z.compare_eq in E. subst k. simpl. now rewrite Z.eqb_refl.
    + rewrite Z.compare_lt_iff in E. simpl. rewrite Z.eqb_refl. simpl.
      destruct (Z.eqb_spec k y) as [->|_]; [lia|].
      fold (lookup y rest). rewrite lookup_absent; [reflexivity|].
      intros h Hh. pose proof (ascending_head_lt _ _ Hs h Hh) as Hlt.
      simpl in Hlt. lia.
    + rewrite Z.compare_gt_iff in E. simpl.
      destruct (Z.eqb_spec k y) as [->|_]; [lia|].
      apply IH. exact (ascending_tail _ _ Hs).
Qed.

Lemma lookup_bump_other y y' agg :
  y' <> y -> lookup y' (bump y agg) = lookup y' agg.
Proof.
  intros Hne. unfold lookup. induction agg as [|[k c] rest IH]; simpl.
  - destruct (Z.eqb_spec y y'); [congruence|reflexivity].
  - destruct (y ?= k) eqn:E; simpl.
    + apply Z.compare_eq in E. subst k.
      destruct (Z.eqb_spec y y'); [congruence|reflexivity].
    + destruct (Z.eqb_spec y y'); [congruence|reflexivity].
    + destruct (k =? y'); [reflexivity|exact IH].
Qed.

Lemma count_year_nonneg y keys : 0 <= count_year y keys.
Proof.
  induction keys as [|[k|] keys IH]; simpl; try lia.
  destruct (k =? y); lia.
Qed.

(** The aggregate has an entry for a year exactly when a row has that
    year, and the entry is the number of such rows. *)
Lemma lookup_groupby_size y keys :
  lookup y (groupby_size keys) =
    if 0 <? count_year y keys then Some (count_year y keys) else None.
Proof.
  induction keys as [|[k|] keys IH]; simpl; [reflexivity| |exact IH].
  pose proof (count_year_nonneg y keys) as Hc.
  destruct (Z.eqb_spec k y) as [->|Hne].
  - rewrite lookup_bump_same by apply groupby_size_ascending. rewrite IH.
    destruct (Z.ltb_spec 0 (count_year y keys));
      destruct (Z.ltb_spec 0 (1 + count_year y keys)); try lia; f_equal; lia.
  - rewrite lookup_bump_other by congruence. exact IH.
Qed.

Lemma zsum_bump y agg : zsum (map snd (bump y agg)) = zsum (map snd agg) + 1.
Proof.
  unfold zsum. induction agg as [|[k c] rest IH]; cbn [bump]; [reflexivity|].
  destruct (y ?= k); cbn [map snd fold_right] in *; lia.
Qed.

Lemma zsum_groupby_size keys :
  zsum (map snd (groupby_size keys)) = Z.of_nat (length (dropna keys)).
Proof.
  induction keys as [|[k|] keys IH]; simpl length; simpl groupby_size;
    [reflexivity| |exact IH].
  rewrite zsum_bump, IH. lia.
Qed.

Lemma counts_positive_bump y agg :
  Forall (fun e => 0 < snd e) agg -> Forall (fun e => 0 < snd e) (bump y agg).
Proof.
  induction agg as [|[k c] rest IH]; intros H; simpl.
  - constructor; simpl; [lia|constructor].
  - inversion H as [|? ? Hc Hr]; subst. simpl in Hc.
    destruct (y ?= k); constructor; simpl; auto; lia.
Qed.

Lemma counts_positive keys : Forall (fun e => 0 < snd e) (groupby_size keys).
Proof.
  induction keys as [|[k|] keys IH]; simpl; auto using counts_positive_bump.
Qed.

(** [sort_values] finds the aggregate already in order. *)
Lemma sort_values_ascending agg : ascending agg -> sort_values agg = agg.
Proof.
  induction agg as [|e rest IH]; intros Hs; [reflexivity|].
  unfold sort_values in *. cbn [fold_right].
  rewrite IH by exact (ascending_tail _ _ Hs).
  destruct rest as [|h t]; [reflexivity|]. cbn [insert_by_key].
  destruct Hs as [Hlt _]. destruct (Z.leb_spec (fst e) (fst h)); [reflexivity|lia].
Qed.


Lemma length_bump y agg :
  ascending agg ->
  length (bump y agg) =
    match lookup y agg with
    | Some _ => length agg
    | None => S (length agg)
    end.
Proof.
  unfold lookup. induction agg as [|[k c] rest IH]; intros Hs; simpl; [reflexivity|].
  destruct (y ?= k) eqn:E.
  - apply Z.compare_eq in E. subst k. now rewrite Z.eqb_refl.
  - rewrite Z.compare_lt_iff in E.
    destruct (Z.eqb_spec k y) as [->|_]; [lia|].
    fold (lookup y rest). rewrite lookup_absent; [reflexivity|].
    intros h Hh. pose proof (ascending_head_lt _ _ Hs h Hh) as Hlt.
    simpl in Hlt. lia.
  - rewrite Z.compare_gt_iff in E.
    destruct (Z.eqb_spec k y) as [->|_]; [lia|].
    simpl. rewrite IH by exact (ascending_tail _ _ Hs).
    destruct (option_map snd (find (fun e => fst e =? y) rest)); reflexivity.
Qed.

Lemma count_year_pos_iff y keys : 0 < count_year y keys <-> In y (dropna keys).
Proof.
  induction keys as [|[k|] keys IH]; simpl; [lia| |exact IH].
  pose proof (count_year_nonneg y keys).
  destruct (Z.eqb_spec k y) as [->|Hne]; split; intros; auto; try lia.
  - right. apply IH. lia.
  - destruct H0 as [->|H0]; [congruence|]. apply IH in H0. lia.
Qed.

(** The aggregate has one entry per distinct year. *)
Lemma length_groupby_size keys :
  length (groupby_size keys) = length (nodup Z.eq_dec (dropna keys)).
Proof.
  induction keys as [|[k|] keys IH]; simpl; [reflexivity| |exact IH].
  rewrite length_bump by apply groupby_size_ascending.
  rewrite lookup_groupby_size.
  pose proof (count_year_pos_iff k keys) as Hc.
  destruct (in_dec Z.eq_dec k (dropna keys)) as [Hin|Hnin];
    destruct (Z.ltb_spec 0 (count_year k keys)) as [Hpos|Hzero]; simpl.
  - exact IH.
  - apply Hc in Hin. lia.
  - apply Hc in Hpos. contradiction.
  - now rewrite IH.
Qed.

End GroupBy.

(* ================================================================== *)
(** * Facts about the filters *)

Section Filters.
Import Pandas Spec.

Lemma filter_twice {A : Type} (f g : A -> bool) (l : list A) :
  filter g (filter f l) = filter (fun a => f a && g a) l.
Proof.
  induction l as [|a l IH]; [reflexivity|]. simpl.
  destruct (f a); simpl; [destruct (g a)|]; now rewrite IH.
Qed.

Lemma year_mask_spec year_range r :
  mask_true (and_na (ge_scalar (Year r) (fst year_range))
                    (le_scalar (Year r) (snd year_range)))
  = in_year_range year_range r.
Proof.
  unfold in_year_range. destruct (Year r) as [y|]; simpl; [|reflexivity].
  destruct (fst year_range <=? y), (y <=? snd year_range); reflexivity.
Qed.

Lemma existsb_eqb_In s l : existsb (String.eqb s) l = true <-> In s l.
Proof.
  rewrite existsb_exists. split.
  - intros (t & Hin & E). apply String.eqb_eq in E. now subst.
  - intros Hin. exists s. split; [exact Hin|apply String.eqb_refl].
Qed.

Lemma isin_spec r t rest :
  isin (Primary_Type r) (t :: rest) = type_allowed (t :: rest) r.
Proof.
  unfold isin, type_allowed. destruct (Primary_Type r) as [s|]; [|reflexivity].
  destruct (in_dec string_dec s (t :: rest)) as [Hin|Hnin].
  - now apply existsb_eqb_In.
  - destruct (existsb (String.eqb s) (t :: rest)) eqn:E; [|reflexivity].
    apply existsb_eqb_In in E. contradiction.
Qed.

Lemma has_column_In name cols : has_column name cols = true <-> In name cols.
Proof. apply existsb_eqb_In. Qed.

(** The two scripts apply the same filters. *)
Lemma app_filtered_eq df year_range selected_types :
  App.filtered df year_range selected_types =
  ModernUI.filtered df year_range selected_types.
Proof. reflexivity. Qed.

Lemma filtered_columns df year_range selected_types :
  columns (ModernUI.filtered df year_range selected_types) = columns df.
Proof.
  unfold ModernUI.filtered. simpl.
  destruct (has_column "Year" (columns df)); simpl;
    destruct (has_column "Primary Type" (columns df) && truthy selected_types);
    reflexivity.
Qed.

(** With both columns in the frame, the filters keep the rows that meet
    the criteria, in their order. *)
Lemma filtered_rows df year_range selected_types :
  has_column "Year" (columns df) = true ->
  has_column "Primary Type" (columns df) = true ->
  rows (ModernUI.filtered df year_range selected_types) =
  filter (meets year_range selected_types) (rows df).
Proof.
  intros HY HT. unfold ModernUI.filtered. simpl. rewrite HY. simpl. rewrite HT.
  destruct selected_types as [|t rest]; simpl.
  - apply filter_ext. intros r. unfold meets. rewrite year_mask_spec.
    simpl. now rewrite andb_true_r.
  - rewrite filter_twice. apply filter_ext. intros r. unfold meets.
    rewrite year_mask_spec. f_equal.
    change (mask_true (Some ?b)) with b. rewrite isin_spec. reflexivity.
Qed.

Lemma meets_parseable year_range allowed r :
  meets year_range allowed r = true -> parseable r = true.
Proof.
  unfold meets, in_year_range, parseable. destruct (Year r); [reflexivity|].
  discriminate.
Qed.

Lemma dropna_years rs :
  length (dropna (map Year rs)) = length (filter parseable rs).
Proof.
  induction rs as [|r rs IH]; [reflexivity|]. unfold parseable in *. simpl.
  destruct (Year r); simpl; now rewrite IH.
Qed.

Lemma filter_all {A : Type} (f : A -> bool) (l : list A) :
  (forall a, In a l -> f a = true) -> filter f l = l.
Proof.
  induction l as [|a l IH]; intros H; [reflexivity|]. simpl.
  rewrite (H a) by now left. f_equal. apply IH. intros b Hb. apply H. now right.
Qed.

End Filters.

(* ================================================================== *)
(** * Facts about the scripts over the heap *)

Section ScriptFacts.
Import Pandas Script.

Lemma grows_refl h : grows h h.
Proof. exists []. now rewrite app_nil_r. Qed.

Lemma grows_trans h1 h2 h3 : grows h1 h2 -> grows h2 h3 -> grows h1 h3.
Proof. intros [t ->] [u ->]. exists (t ++ u). now rewrite app_assoc. Qed.

Lemma grows_alloc h o : grows h (h ++ [o]).
Proof. now exists [o]. Qed.

Lemma grows_nth_error h h' p o :
  grows h h' -> nth_error h p = Some o -> nth_error h' p = Some o.
Proof.
  intros [t ->] H. rewrite nth_error_app1; [exact H|].
  apply nth_error_Some. congruence.
Qed.

Lemma grows_length h h' : grows h h' -> (length h <= length h')%nat.
Proof. intros [t ->]. rewrite length_app. lia. Qed.

Lemma nth_error_last (h : Heap) o : nth_error (h ++ [o]) (length h) = Some o.
Proof. rewrite nth_error_app2 by lia. now rewrite Nat.sub_diag. Qed.

Lemma bind_ok {A B : Type} (m : M A) (k : A -> M B) h a h1 r :
  m h = Some (a, h1) -> k a h1 = r -> bind m k h = r.
Proof. unfold bind. now intros ->. Qed.

Lemma frame_at_ok h p d :
  nth_error h p = Some (Frame d) -> frame_at p h = Some (d, h).
Proof. unfold frame_at. now intros ->. Qed.

Lemma counts_at_ok h p c :
  nth_error h p = Some (Counts c) -> counts_at p h = Some (c, h).
Proof. unfold counts_at. now intros ->. Qed.

Lemma copy_ok h p d :
  nth_error h p = Some (Frame d) ->
  copy p h = Some (length h, h ++ [Frame (Pandas.copy d)]).
Proof. intros H. unfold copy. eapply bind_ok; [apply frame_at_ok; exact H|reflexivity]. Qed.

Lemma getitem_mask_ok h p d mask :
  nth_error h p = Some (Frame d) ->
  getitem_mask p mask h =
    Some (length h, h ++ [Frame (Pandas.getitem_mask d mask)]).
Proof.
  intros H. unfold getitem_mask.
  eapply bind_ok; [apply frame_at_ok; exact H|reflexivity].
Qed.

Lemma groupby_Year_size_ok h p d :
  nth_error h p = Some (Frame d) ->
  groupby_Year_size p h =
    Some (length h, h ++ [Counts (groupby_size (map Year (rows d)))]).
Proof.
  intros H. unfold groupby_Year_size.
  eapply bind_ok; [apply frame_at_ok; exact H|reflexivity].
Qed.

Lemma sort_values_ok h p c :
  nth_error h p = Some (Counts c) ->
  sort_values p h = Some (length h, h ++ [Counts (Pandas.sort_values c)]).
Proof.
  intros H. unfold sort_values.
  eapply bind_ok; [apply counts_at_ok; exact H|reflexivity].
Qed.

Ltac step lem := eapply bind_ok; [apply lem; apply nth_error_last|].
Ltac grown := repeat (eapply grows_trans; [|apply grows_alloc]); apply grows_refl.

Lemma apply_filters_ok h df d year_range selected_types :
  nth_error h df = Some (Frame d) ->
  exists filtered h',
    apply_filters df year_range selected_types h = Some (filtered, h') /\
    grows h h' /\
    nth_error h' filtered =
      Some (Frame (ModernUI.filtered d year_range selected_types)) /\
    (length h <= filtered)%nat.
Proof.
  intros Hdf. unfold ModernUI.filtered. cbn [columns Pandas.copy].
  destruct (has_column "Year" (columns d)) eqn:HY;
    cbn [columns Pandas.getitem_mask Pandas.copy];
    destruct (has_column "Primary Type" (columns d) && truthy selected_types) eqn:HT;
    eexists _, _; (split; [|split; [|split]]).
  all: try (unfold apply_filters;
    (eapply bind_ok; [apply copy_ok; exact Hdf|]);
    step frame_at_ok; cbn [columns Pandas.copy]; rewrite HY;
    try step getitem_mask_ok;
    try (eapply bind_ok; [reflexivity|]);
    (eapply bind_ok; [apply frame_at_ok; apply nth_error_last|]);
    cbn [columns Pandas.copy Pandas.getitem_mask]; rewrite HT;
    try step getitem_mask_ok;
    try (eapply bind_ok; [reflexivity|]);
    reflexivity).
  all: try grown.
  all: try apply nth_error_last.
  all: rewrite ?length_app; simpl; lia.
Qed.

Lemma prepare_yearly_ok h filtered d :
  nth_error h filtered = Some (Frame d) ->
  exists yearly h',
    prepare_yearly filtered h = Some (yearly, h') /\
    grows h h' /\
    nth_error h' yearly = Some (Counts (ModernUI.yearly d)) /\
    (length h <= yearly)%nat.
Proof.
  intros Hf. unfold ModernUI.yearly.
  destruct (has_column "Year" (columns d)) eqn:HY;
    eexists _, _; (split; [|split; [|split]]).
  1, 5: unfold prepare_yearly;
    (eapply bind_ok; [apply frame_at_ok; exact Hf|]); rewrite HY.
  - eapply bind_ok; [apply groupby_Year_size_ok; exact Hf|].
    step sort_values_ok. reflexivity.
  - reflexivity.
  - grown.
  - apply nth_error_last.
  - rewrite ?length_app; simpl; lia.
  - grown.
  - apply nth_error_last.
  - lia.
Qed.

(** What a run of the two steps does to the heap and what it returns. *)
Lemma filter_aggregate_ok h df d year_range selected_types :
  nth_error h df = Some (Frame d) ->
  exists filtered yearly h',
    filter_aggregate df year_range selected_types h = Some ((filtered, yearly), h') /\
    grows h h' /\
    nth_error h' filtered =
      Some (Frame (ModernUI.filtered d year_range selected_types)) /\
    nth_error h' yearly =
      Some (Counts (ModernUI.yearly (ModernUI.filtered d year_range selected_types))) /\
    (length h <= filtered)%nat /\ (length h <= yearly)%nat.
Proof.
  intros Hdf.
  destruct (apply_filters_ok h df d year_range selected_types Hdf)
    as (f & h1 & Hrun1 & Hg1 & Hf & Hlf).
  destruct (prepare_yearly_ok h1 f _ Hf) as (y & h2 & Hrun2 & Hg2 & Hy & Hly).
  exists f, y, h2. split; [|split; [|split; [|split; [|split]]]].
  - unfold filter_aggregate. eapply bind_ok; [exact Hrun1|].
    eapply bind_ok; [exact Hrun2|]. reflexivity.
  - eapply grows_trans; eassumption.
  - eapply grows_nth_error; eassumption.
  - exact Hy.
  - exact Hlf.
  - pose proof (grows_length _ _ Hg1). lia.
Qed.

End ScriptFacts.

(* ================================================================== *)
(** * Facts about rounding and the least-squares line *)

Section Rounding.
Import Numpy.

Lemma round_bounds v : Qfloor v <= round v <= Qfloor v + 1.
Proof.
  unfold round. destruct (_ ?= _)%Q; [destruct (Z.even _)| |]; lia.
Qed.

(** [round] returns a nearest integer. *)
Lemma round_nearest v :
  (inject_Z (round v) - v <= 1 # 2)%Q /\ (v - inject_Z (round v) <= 1 # 2)%Q.
Proof.
  pose proof (Qfloor_le v) as Hlo. pose proof (Qlt_floor v) as Hhi.
  rewrite inject_Z_plus in Hhi. change (inject_Z 1) with 1%Q in Hhi.
  unfold round.
  destruct (v - inject_Z (Qfloor v) ?= 1 # 2)%Q eqn:E.
  - apply Qeq_alt in E.
    destruct (Z.even (Qfloor v)); [split; lra|].
    rewrite inject_Z_plus. change (inject_Z 1) with 1%Q. split; lra.
  - apply Qlt_alt in E. split; lra.
  - apply Qgt_alt in E. rewrite inject_Z_plus. change (inject_Z 1) with 1%Q.
    split; lra.
Qed.


Lemma round_of_nonnegative v : (0 <= v)%Q -> 0 <= round v.
Proof.
  intros Hv. pose proof (Qlt_floor v) as Hhi. pose proof (round_bounds v) as Hb.
  assert (inject_Z 0 < inject_Z (Qfloor v + 1))%Q as H by (change (inject_Z 0) with 0%Q; lra).
  rewrite <- Zlt_Qlt in H. lia.
Qed.

Lemma round_comp v w : (v == w)%Q -> round v = round w.
Proof.
  intros E. unfold round. rewrite (Qfloor_comp _ _ E).
  assert (v - inject_Z (Qfloor w) == w - inject_Z (Qfloor w))%Q as E' by (rewrite E; reflexivity).
  rewrite (Qcompare_comp _ _ E' (1#2)%Q (1#2)%Q (Qeq_refl _)). reflexivity.
Qed.

Lemma round_inject_Z z : round (inject_Z z) = z.
Proof.
  unfold round. rewrite Qfloor_Z.
  assert (((inject_Z z - inject_Z z) ?= (1 # 2))%Q = Lt) as ->; [|reflexivity].
  apply (proj1 (Qlt_alt _ _)). lra.
Qed.

End Rounding.

Section LeastSquares.
Import Numpy Spec.

Lemma zsum_cons a l : zsum (a :: l) = a + zsum l.
Proof. reflexivity. Qed.

Lemma dot_cons a b x y : dot (a :: x) (b :: y) = a * b + dot x y.
Proof. reflexivity. Qed.

Lemma sum_sq_dist a x :
  zsum (map (fun z => (a - z) * (a - z)) x) =
  Z.of_nat (length x) * (a * a) - 2 * a * zsum x + dot x x.
Proof.
  induction x as [|z x IH]; [unfold zsum, dot; simpl; lia|].
  cbn [map length]. rewrite zsum_cons, dot_cons, zsum_cons, IH. lia.
Qed.

Lemma sum_sq_nonneg a x : 0 <= zsum (map (fun z => (a - z) * (a - z)) x).
Proof.
  induction x as [|z x IH]; [unfold zsum; simpl; lia|].
  cbn [map]. rewrite zsum_cons. pose proof (Z.square_nonneg (a - z)). lia.
Qed.

Lemma spread_cons a x :
  spread (a :: x) = spread x + zsum (map (fun z => (a - z) * (a - z)) x).
Proof.
  rewrite sum_sq_dist. unfold spread.
  cbn [length]. rewrite dot_cons, zsum_cons. lia.
Qed.

Lemma spread_nonneg x : 0 <= spread x.
Proof.
  induction x as [|a x IH]; [reflexivity|].
  rewrite spread_cons. pose proof (sum_sq_nonneg a x). lia.
Qed.

(** Two different abscissas make the slope's denominator positive. *)
Lemma spread_pos a b x : a <> b -> 0 < spread (a :: b :: x).
Proof.
  intros Hne. rewrite spread_cons. cbn [map]. rewrite zsum_cons.
  pose proof (spread_nonneg (b :: x)). pose proof (sum_sq_nonneg a x).
  assert (0 < (a - b) * (a - b)) by nia. lia.
Qed.

End LeastSquares.

Section NormalEquations.
Open Scope Q_scope.

Variables N SX SY SXX SXY SYY : Q.
Hypothesis N_pos : 0 < N.
Hypothesis D_pos : 0 < N * SXX - SX * SX.

Import Spec.
Local Abbreviation quad := (sse_of_sums N SX SY SXX SXY SYY).

Lemma quad_gap (a b a' b' : Q) :
  a * SXX + b * SX == SXY -> a * SX + b * N == SY ->
  quad a' b' - quad a b ==
  SXX * ((a' - a) * (a' - a)) + 2 * SX * ((a' - a) * (b' - b)) + N * ((b' - b) * (b' - b)).
Proof.
  intros H1 H2. unfold sse_of_sums. rewrite <- H1, <- H2. ring.
Qed.

Lemma Qsquare_nonneg (x : Q) : 0 <= x * x.
Proof. destruct x as [n d]. unfold Qle. simpl. nia. Qed.

Lemma form_nonneg (u v : Q) :
  0 <= SXX * (u * u) + 2 * SX * (u * v) + N * (v * v).
Proof.
  assert (H : N * (SXX * (u * u) + 2 * SX * (u * v) + N * (v * v)) ==
          (N * v + SX * u) * (N * v + SX * u) + (N * SXX - SX * SX) * (u * u)) by ring.
  pose proof (Qsquare_nonneg (N * v + SX * u)) as H1.
  pose proof (Qmult_le_0_compat _ _ (Qlt_le_weak _ _ D_pos) (Qsquare_nonneg u)) as H2.
  set (f := SXX * (u * u) + 2 * SX * (u * v) + N * (v * v)) in *.
  assert (0 <= N * f) as H3 by lra.
  destruct (Qlt_le_dec f 0) as [Hneg|]; [|assumption].
  exfalso. assert (N * f < 0) as H4; [|lra].
  setoid_replace (N * f) with (- (N * - f)) by ring.
  assert (0 < N * - f); [|lra]. apply Qmult_lt_0_compat; lra.
Qed.

(** A solution of the normal equations minimises the sum of squares. *)
Lemma quad_minimal (a b a' b' : Q) :
  a * SXX + b * SX == SXY -> a * SX + b * N == SY ->
  quad a b <= quad a' b'.
Proof.
  intros H1 H2. pose proof (quad_gap a b a' b' H1 H2) as G.
  pose proof (form_nonneg (a' - a) (b' - b)) as F.
  lra.
Qed.

End NormalEquations.

Section Polyfit.
Import Numpy Spec.

Lemma inject_Z_sub (x y : Z) : inject_Z (x - y) = (inject_Z x - inject_Z y)%Q.
Proof. unfold Z.sub, Qminus. now rewrite inject_Z_plus, inject_Z_opp. Qed.

Lemma combine_fst_snd (points : list (Z * Z)) :
  combine (map fst points) (map snd points) = points.
Proof.
  induction points as [|[x y] points IH]; [reflexivity|]. simpl. now rewrite IH.
Qed.

Lemma sse_cons a b p points :
  sse a b (p :: points) =
  ((inject_Z (snd p) - (a * inject_Z (fst p) + b)) *
   (inject_Z (snd p) - (a * inject_Z (fst p) + b)) + sse a b points)%Q.
Proof. reflexivity. Qed.

(** The sum of squared residuals is the polynomial in the sums. *)
Lemma sse_sums a b points :
  let x := map fst points in
  let y := map snd points in
  (sse a b points ==
   sse_of_sums (inject_Z (Z.of_nat (length x))) (inject_Z (zsum x))
     (inject_Z (zsum y)) (inject_Z (dot x x)) (inject_Z (dot x y))
     (inject_Z (dot y y)) a b)%Q.
Proof.
  induction points as [|[px py] points IH]; cbn zeta in *.
  - unfold sse, sse_of_sums, dot, zsum. cbn [map combine fold_right length Z.of_nat].
    change (inject_Z 0) with 0%Q. ring.
  - rewrite sse_cons, IH. cbn [map fst snd]. unfold sse_of_sums.
    rewrite !dot_cons, !zsum_cons. cbn [length].
    rewrite Nat2Z.inj_succ. unfold Z.succ.
    rewrite !inject_Z_plus, !inject_Z_mult. change (inject_Z 1) with 1%Q.
    ring.
Qed.

(** [polyfit1] solves the normal equations. *)
Lemma polyfit1_normal x y :
  0 < Z.of_nat (length x) -> 0 < spread x ->
  let c := polyfit1 x y in
  (fst c * inject_Z (dot x x) + snd c * inject_Z (zsum x) == inject_Z (dot x y))%Q /\
  (fst c * inject_Z (zsum x) + snd c * inject_Z (Z.of_nat (length x)) == inject_Z (zsum y))%Q.
Proof.
  intros Hn Hd. unfold spread in Hd. unfold polyfit1. cbn zeta. cbn [fst snd].
  rewrite Zlt_Qlt in Hn, Hd.
  rewrite !inject_Z_sub, !inject_Z_mult in *.
  change (inject_Z 0) with 0%Q in *.
  split; field; split; lra.
Qed.

(** [polyfit1] returns a least-squares line: no line has a smaller sum of
    squared residuals on the points. *)
Lemma polyfit1_least_squares points a' b' :
  0 < spread (map fst points) ->
  let c := polyfit1 (map fst points) (map snd points) in
  (sse (fst c) (snd c) points <= sse a' b' points)%Q.
Proof.
  intros Hd c.
  assert (Hn : 0 < Z.of_nat (length (map fst points))).
  { destruct points; [discriminate Hd|]. simpl length. lia. }
  destruct (polyfit1_normal _ (map snd points) Hn Hd) as [H1 H2]. fold c in H1, H2.
  rewrite !sse_sums. apply quad_minimal; try assumption.
  - rewrite Zlt_Qlt in Hn. exact Hn.
  - unfold spread in Hd. rewrite Zlt_Qlt in Hd.
    rewrite inject_Z_sub, !inject_Z_mult in Hd. exact Hd.
Qed.

(** Points on a line [alpha * x + beta] are fitted by that line. *)
Lemma zsum_line alpha beta x :
  zsum (map (fun z => alpha * z + beta) x) =
  alpha * zsum x + Z.of_nat (length x) * beta.
Proof.
  induction x as [|z x IH]; [unfold zsum; simpl; lia|].
  cbn [map length]. rewrite !zsum_cons, IH. lia.
Qed.

Lemma dot_line alpha beta x :
  dot x (map (fun z => alpha * z + beta) x) = alpha * dot x x + beta * zsum x.
Proof.
  induction x as [|z x IH]; [unfold zsum, dot; simpl; lia|].
  cbn [map]. rewrite !dot_cons, zsum_cons, IH. lia.
Qed.

Lemma polyfit1_line alpha beta x :
  0 < spread x ->
  let c := polyfit1 x (map (fun z => alpha * z + beta) x) in
  (fst c == inject_Z alpha)%Q /\ (snd c == inject_Z beta)%Q.
Proof.
  intros Hd.
  assert (Hn : 0 < Z.of_nat (length x)) by (destruct x; [discriminate Hd|simpl length; lia]).
  unfold polyfit1. cbn zeta. cbn [fst snd]. rewrite zsum_line, dot_line.
  unfold spread in Hd. rewrite Zlt_Qlt in Hn, Hd.
  rewrite !inject_Z_sub, !inject_Z_mult in Hd.
  repeat rewrite ?inject_Z_sub, ?inject_Z_plus, ?inject_Z_mult.
  change (inject_Z 0) with 0%Q in *.
  split; field; try split; lra.
Qed.

End Polyfit.

(* ================================================================== *)
(** * Facts about the yearly summary and the projection *)

Section Projection.
Import Pandas Numpy Spec.

Lemma tail_split {A : Type} n (l : list A) :
  l = firstn (length l - n) l ++ tail n l.
Proof. unfold tail. now rewrite firstn_skipn. Qed.

Lemma length_tail {A : Type} n (l : list A) :
  (n <= length l)%nat -> length (tail n l) = n.
Proof. intros H. unfold tail. rewrite length_skipn. lia. Qed.

Lemma ascending_app agg1 agg2 :
  ascending (agg1 ++ agg2) ->
  ascending agg2 /\
  forall o r, In o agg1 -> In r agg2 -> fst o < fst r.
Proof.
  induction agg1 as [|e agg1 IH]; intros Hs.
  - split; [exact Hs|]. intros o r [].
  - pose proof (ascending_head_lt _ _ Hs) as Hlt.
    destruct (IH (ascending_tail _ _ Hs)) as [H2 Hall].
    split; [exact H2|]. intros o r [<-|Ho] Hr.
    + apply Hlt. apply in_or_app. now right.
    + now apply Hall.
Qed.

Lemma ascending_spread_pos agg :
  ascending agg -> (2 <= length agg)%nat -> 0 < spread (map fst agg).
Proof.
  destruct agg as [|e1 [|e2 rest]]; simpl length; try lia.
  intros [Hlt _] _. cbn [map]. apply spread_pos. lia.
Qed.

(** With five years or more there is a projection, and it is the
    rounded, clamped value of the fitted line at 2026. *)
Lemma pred_2026_some yearly :
  (5 <= length yearly)%nat ->
  ModernUI.pred_2026 yearly =
    Some (clamp (round (fitted_value (tail 5 yearly) 2026))).
Proof.
  intros H. unfold ModernUI.pred_2026.
  destruct (Z.leb_spec 5 (Z.of_nat (length yearly))) as [_|]; [|lia].
  cbn zeta. fold (fitted_value (tail 5 yearly) 2026). f_equal.
  unfold clamp. destruct (Z.ltb_spec (round (fitted_value (tail 5 yearly) 2026)) 0); lia.
Qed.

Lemma pred_2026_none yearly :
  (length yearly < 5)%nat -> ModernUI.pred_2026 yearly = None.
Proof.
  intros H. unfold ModernUI.pred_2026.
  destruct (Z.leb_spec 5 (Z.of_nat (length yearly))); [lia|reflexivity].
Qed.

Lemma count_year_of_year y rs :
  count_year y (map Year rs) = Z.of_nat (length (filter (of_year y) rs)).
Proof.
  induction rs as [|r rs IH]; [reflexivity|].
  cbn [map count_year filter]. unfold of_year at 1.
  destruct (Year r) as [k|]; [|exact IH].
  destruct (k =? y); cbn [length]; lia.
Qed.

Lemma count_year_perm y keys keys' :
  Permutation keys keys' -> count_year y keys = count_year y keys'.
Proof.
  induction 1 as [|k l l' _ IH|k k' l|l l' l'' _ IH1 _ IH2]; simpl.
  - reflexivity.
  - destruct k; now rewrite IH.
  - destruct k, k'; lia.
  - congruence.
Qed.

(** Two aggregates in ascending order that give every year the same
    count are the same list. *)
Lemma ascending_ext agg1 agg2 :
  ascending agg1 -> ascending agg2 ->
  (forall y, lookup y agg1 = lookup y agg2) -> agg1 = agg2.
Proof.
  revert agg2. induction agg1 as [|[k1 c1] t1 IH]; intros [|[k2 c2] t2] H1 H2 E.
  - reflexivity.
  - specialize (E k2). unfold lookup in E. simpl in E. rewrite Z.eqb_refl in E. discriminate.
  - specialize (E k1). unfold lookup in E. simpl in E. rewrite Z.eqb_refl in E. discriminate.
  - pose proof (ascending_head_lt _ _ H1) as L1.
    pose proof (ascending_head_lt _ _ H2) as L2. cbn [fst] in L1, L2.
    assert (N1 : lookup k1 t1 = None).
    { apply lookup_absent. intros h Hh. specialize (L1 h Hh). lia. }
    assert (N2 : lookup k2 t2 = None).
    { apply lookup_absent. intros h Hh. specialize (L2 h Hh). lia. }
    assert (Hk : k1 = k2).
    { pose proof (E k1) as E1. pose proof (E k2) as E2. unfold lookup in E1, E2.
      cbn [find fst] in E1, E2. rewrite Z.eqb_refl in E1, E2.
      destruct (Z.eqb_spec k2 k1) as [->|Hne]; [reflexivity|].
      destruct (Z.eqb_spec k1 k2) as [->|_]; [reflexivity|].
      exfalso. destruct (Z.lt_total k1 k2) as [Hlt|[->|Hgt]]; [|congruence|].
      - fold (lookup k1 t2) in E1. rewrite lookup_absent in E1; [discriminate|].
        intros h Hh. specialize (L2 h Hh). lia.
      - fold (lookup k2 t1) in E2. rewrite lookup_absent in E2; [discriminate|].
        intros h Hh. specialize (L1 h Hh). lia. }
    subst k2.
    assert (Hc : c1 = c2).
    { specialize (E k1). unfold lookup in E. cbn [find fst] in E.
      rewrite Z.eqb_refl in E. simpl in E. congruence. }
    subst c2. f_equal. apply IH.
    + exact (ascending_tail _ _ H1).
    + exact (ascending_tail _ _ H2).
    + intros y. destruct (Z.eq_dec y k1) as [->|Hne]; [congruence|].
      specialize (E y). unfold lookup in E. cbn [find fst] in E.
      destruct (Z.eqb_spec k1 y); [congruence|exact E].
Qed.

(** The aggregate does not depend on the order of the rows. *)
Lemma groupby_size_perm keys keys' :
  Permutation keys keys' -> groupby_size keys = groupby_size keys'.
Proof.
  intros P. apply ascending_ext; try apply groupby_size_ascending.
  intros y. rewrite !lookup_groupby_size. now rewrite (count_year_perm y _ _ P).
Qed.

Lemma yearly_groupby flt :
  has_column "Year" (columns flt) = true ->
  ModernUI.yearly flt = groupby_size (map Year (rows flt)).
Proof.
  intros HY. unfold ModernUI.yearly. rewrite HY.
  apply sort_values_ascending, groupby_size_ascending.
Qed.

Lemma yearly_ascending flt : ascending (ModernUI.yearly flt).
Proof.
  unfold ModernUI.yearly. destruct (has_column "Year" (columns flt)); [|exact I].
  rewrite sort_values_ascending; apply groupby_size_ascending.
Qed.

Lemma length_yearly flt :
  has_column "Year" (columns flt) = true ->
  length (ModernUI.yearly flt) = length (distinct_years (rows flt)).
Proof.
  intros HY. rewrite yearly_groupby by exact HY. apply length_groupby_size.
Qed.

End Projection.

(* ================================================================== *)
(** * Facts about the sidebar *)

Section Selection.
Import Pandas Numpy Spec.

Lemma In_dropna {A : Type} (a : A) l : In a (dropna l) <-> In (Some a) l.
Proof.
  induction l as [|[b|] l IH]; simpl.
  - tauto.
  - rewrite IH. split; intros [E|H]; auto; left; congruence.
  - rewrite IH. split; [auto|]. intros [E|H]; [discriminate|exact H].
Qed.

Lemma In_unique s l : In s (unique l) <-> In s l.
Proof.
  induction l as [|t l IH]; simpl; [tauto|].
  rewrite filter_In, IH. split.
  - intros [E|[H _]]; auto.
  - intros [E|H]; [now left|].
    destruct (String.eqb_spec t s) as [E|N]; [now left|right]. now split.
Qed.

Lemma In_insert_string s t l : In s (insert_string t l) <-> s = t \/ In s l.
Proof.
  induction l as [|h l IH]; simpl; [intuition congruence|].
  destruct (String.leb t h); simpl; [intuition congruence|].
  rewrite IH. intuition congruence.
Qed.

Lemma In_sorted s l : In s (sorted l) <-> In s l.
Proof.
  unfold sorted. induction l as [|t l IH]; simpl; [tauto|].
  rewrite In_insert_string, IH. intuition congruence.
Qed.

(** The multiselect offers the labels that occur in the frame. *)
Lemma In_types df t :
  In t (ModernUI.types df) <-> exists r, In r (rows df) /\ Primary_Type r = Some t.
Proof.
  unfold ModernUI.types. rewrite In_sorted, In_unique, In_dropna, in_map_iff.
  split; intros (r & H1 & H2); exists r; auto.
Qed.

Lemma fold_left_min_le l : forall z,
  fold_left Z.min l z <= z /\ forall x, In x l -> fold_left Z.min l z <= x.
Proof.
  induction l as [|a l IH]; intros z; simpl; [split; [lia|tauto]|].
  destruct (IH (Z.min z a)) as [H1 H2]. split; [lia|].
  intros x [<-|Hx]; [lia|now apply H2].
Qed.

Lemma fold_left_max_ge l : forall z,
  z <= fold_left Z.max l z /\ forall x, In x l -> x <= fold_left Z.max l z.
Proof.
  induction l as [|a l IH]; intros z; simpl; [split; [lia|tauto]|].
  destruct (IH (Z.max z a)) as [H1 H2]. split; [lia|].
  intros x [<-|Hx]; [lia|now apply H2].
Qed.

Lemma series_min_le l lo y : series_min l = Some lo -> In (Some y) l -> lo <= y.
Proof.
  unfold series_min. intros H Hin. apply In_dropna in Hin.
  destruct (dropna l) as [|z rest]; [discriminate|]. injection H as <-.
  destruct (fold_left_min_le rest z) as [H1 H2].
  destruct Hin as [<-|Hin]; [exact H1|now apply H2].
Qed.

Lemma series_max_ge l hi y : series_max l = Some hi -> In (Some y) l -> y <= hi.
Proof.
  unfold series_max. intros H Hin. apply In_dropna in Hin.
  destruct (dropna l) as [|z rest]; [discriminate|]. injection H as <-.
  destruct (fold_left_max_ge rest z) as [H1 H2].
  destruct Hin as [<-|Hin]; [exact H1|now apply H2].
Qed.

(** On the rows of the frame, the full year range and all offered types
    ask for a known year and a label. *)
Lemma meets_full_selection df lo hi r :
  ModernUI.min_y df = Some lo -> ModernUI.max_y df = Some hi ->
  In r (rows df) ->
  meets (lo, hi) (ModernUI.types df) r =
  kept_by_full_selection (ModernUI.types df) r.
Proof.
  intros Hlo Hhi Hin. unfold meets, kept_by_full_selection.
  f_equal.
  - unfold in_year_range, parseable. destruct (Year r) as [y|] eqn:E; [|reflexivity].
    assert (Hy : In (Some y) (map Year (rows df))).
    { rewrite <- E. now apply in_map. }
    pose proof (series_min_le _ _ _ Hlo Hy). pose proof (series_max_ge _ _ _ Hhi Hy).
    cbn [fst snd]. apply andb_true_iff. lia.
  - unfold type_allowed, labelled.
    destruct (Primary_Type r) as [t|] eqn:E.
    + assert (Ht : In t (ModernUI.types df)) by (apply In_types; eauto).
      destruct (ModernUI.types df) as [|t0 rest]; [reflexivity|].
      destruct (in_dec string_dec t (t0 :: rest)); [reflexivity|contradiction].
    + destruct (ModernUI.types df); reflexivity.
Qed.

End Selection.

(* ================================================================== *)
(** * Facts about loading *)

Section Loading.
Import Pandas Spec.

Variable parse_datetime : string -> option Timestamp.

Lemma frame_rows_length with_date i l :
  length (ModernUI.frame_rows parse_datetime with_date i l) = length l.
Proof.
  revert i. induction l as [|c l IH]; intros i; [reflexivity|].
  simpl. now rewrite IH.
Qed.

(** Loading with a [Date] column: row [k] of the file becomes row [k] of
    the frame, its date parsed or [NaT], its year that of the date. *)
Lemma frame_rows_nth l : forall i k c,
  nth_error l k = Some c ->
  exists r,
    nth_error (ModernUI.frame_rows parse_datetime true i l) k = Some r /\
    label r = (i + k)%nat /\
    Date r = ModernUI.to_datetime parse_datetime (csv_Date c) /\
    Year r = option_map dt_year (Date r) /\
    Primary_Type r = csv_Primary_Type c.
Proof.
  induction l as [|c0 l IH]; intros i k c H; [destruct k; discriminate|].
  destruct k as [|k]; simpl in H.
  - injection H as <-. eexists. split; [reflexivity|]. cbn. repeat split. lia.
  - destruct (IH (S i) k c H) as (r & Hr & Hl & Hrest). exists r.
    split; [exact Hr|]. split; [lia|exact Hrest].
Qed.

Lemma frame_rows_year l : forall i r,
  In r (ModernUI.frame_rows parse_datetime true i l) ->
  Year r = option_map dt_year (Date r).
Proof.
  induction l as [|c l IH]; intros i r; [intros []|].
  intros [<-|Hin]; [reflexivity|]. exact (IH _ _ Hin).
Qed.

End Loading.

(* ================================================================== *)
(** * The properties the specification states *)

Section Claims.
Import Pandas Numpy Spec.

(** With a [Year] column, every filtered record has a known year. *)
Lemma filtered_parseable df year_range selected_types r :
  has_column "Year" (columns df) = true ->
  In r (rows (ModernUI.filtered df year_range selected_types)) ->
  parseable r = true.
Proof.
  intros HY. unfold ModernUI.filtered. cbn [columns Pandas.copy]. rewrite HY.
  cbn [columns Pandas.getitem_mask Pandas.copy].
  assert (Hmask : forall r',
            mask_true (and_na (ge_scalar (Year r') (fst year_range))
                              (le_scalar (Year r') (snd year_range))) = true ->
            parseable r' = true).
  { intros r'. rewrite year_mask_spec. unfold in_year_range, parseable.
    destruct (Year r'); [reflexivity|discriminate]. }
  destruct (has_column "Primary Type" (columns df) && truthy selected_types);
    cbn [rows Pandas.getitem_mask Pandas.copy]; rewrite ?filter_In;
    intros H; apply Hmask; tauto.
Qed.

Lemma meets_iff year_range allowed r :
  meets year_range allowed r = true <->
  (exists y, Year r = Some y /\ fst year_range <= y <= snd year_range) /\
  (allowed = [] \/ exists t, Primary_Type r = Some t /\ In t allowed).
Proof.
  unfold meets, in_year_range, type_allowed. rewrite andb_true_iff. split.
  - intros [HY HT]. split.
    + destruct (Year r) as [y|]; [|discriminate]. exists y. split; [reflexivity|].
      apply andb_true_iff in HY. lia.
    + destruct allowed as [|t0 rest]; [now left|]. right.
      destruct (Primary_Type r) as [t|]; [|discriminate]. exists t. split; [reflexivity|].
      destruct (in_dec string_dec t (t0 :: rest)); [assumption|discriminate].
  - intros [(y & -> & Hy) HT]. split.
    + apply andb_true_iff. lia.
    + destruct allowed as [|t0 rest]; [reflexivity|].
      destruct HT as [|(t & -> & Hin)]; [discriminate|].
      destruct (in_dec string_dec t (t0 :: rest)); [reflexivity|contradiction].
Qed.

(** C1. For a collection with the [Year] and [Primary Type] columns, the
    filters of both scripts return exactly the records whose year lies in
    the inclusive range and whose crime type is an allowed label (every
    record when no label is selected), in their order; the yearly summary
    has one entry per year present in that subset, in ascending order,
    and the entry of a year is the number of its records. *)
Theorem C1_filter_and_aggregate df year_range selected_types :
  has_column "Year" (columns df) = true ->
  has_column "Primary Type" (columns df) = true ->
  let flt := ModernUI.filtered df year_range selected_types in
  let agg := ModernUI.yearly flt in
  App.filtered df year_range selected_types = flt /\
  App.yearly flt = Some agg /\
  rows flt = filter (meets year_range selected_types) (rows df) /\
  (forall r, meets year_range selected_types r = true <->
     (exists y, Year r = Some y /\ fst year_range <= y <= snd year_range) /\
     (selected_types = [] \/
      exists t, Primary_Type r = Some t /\ In t selected_types)) /\
  ascending agg /\
  (forall y, lookup y agg =
     let n := Z.of_nat (length (filter (of_year y) (rows flt))) in
     if 0 <? n then Some n else None).
Proof.
  intros HY HT flt agg.
  assert (HYf : has_column "Year" (columns flt) = true).
  { unfold flt. now rewrite filtered_columns. }
  split; [reflexivity|]. split; [|split; [|split; [|split]]].
  - unfold App.yearly. rewrite HYf. unfold agg. now rewrite yearly_groupby.
  - now apply filtered_rows.
  - intros r. apply meets_iff.
  - apply yearly_ascending.
  - intros y. unfold agg. rewrite yearly_groupby by exact HYf.
    rewrite lookup_groupby_size, count_year_of_year. reflexivity.
Qed.

Lemma C1_filter_and_aggregate_witness :
  has_column "Year" (columns Examples.df_undated) = true /\
  has_column "Primary Type" (columns Examples.df_undated) = true /\
  rows (ModernUI.filtered Examples.df_undated (2020, 2021) ["THEFT"%string]) =
    filter (meets (2020, 2021) ["THEFT"%string]) (rows Examples.df_undated).
Proof.
  split; [reflexivity|]. split; [reflexivity|].
  apply (C1_filter_and_aggregate Examples.df_undated (2020, 2021)
           ["THEFT"%string]); reflexivity.
Defined.

(** C5. The counts of the yearly summary add up to the number of
    filtered records that have a parsed timestamp. *)
Theorem C5_aggregate_sum df year_range selected_types :
  has_column "Year" (columns df) = true ->
  let flt := ModernUI.filtered df year_range selected_types in
  zsum (map snd (ModernUI.yearly flt)) =
    Z.of_nat (length (filter parseable (rows flt))) /\
  exists agg,
    App.yearly (App.filtered df year_range selected_types) = Some agg /\
    zsum (map snd agg) = Z.of_nat (length (filter parseable (rows flt))).
Proof.
  intros HY flt.
  assert (HYf : has_column "Year" (columns flt) = true).
  { unfold flt. now rewrite filtered_columns. }
  assert (E : zsum (map snd (groupby_size (map Year (rows flt)))) =
              Z.of_nat (length (filter parseable (rows flt)))).
  { now rewrite zsum_groupby_size, dropna_years. }
  split.
  - now rewrite yearly_groupby.
  - rewrite app_filtered_eq. fold flt. unfold App.yearly. rewrite HYf.
    eexists. split; [reflexivity|exact E].
Qed.

Lemma C5_aggregate_sum_witness :
  has_column "Year" (columns Examples.df_undated) = true /\
  zsum (map snd (ModernUI.yearly
                   (ModernUI.filtered Examples.df_undated (2019, 2024) []))) =
    Z.of_nat (length (filter parseable
      (rows (ModernUI.filtered Examples.df_undated (2019, 2024) [])))).
Proof.
  split; [reflexivity|].
  apply (C5_aggregate_sum Examples.df_undated (2019, 2024) []); reflexivity.
Defined.

(** C3. With fewer than five distinct years among the filtered records
    (in particular with no filtered record at all) the projection is
    [None], never a number, while the filtered frame and its yearly
    summary are there: the summary of an empty frame is empty. *)
Theorem C3_insufficient_data flt :
  (length (distinct_years (rows flt)) < 5)%nat ->
  ModernUI.pred_2026 (ModernUI.yearly flt) = None /\
  (rows flt = [] -> ModernUI.yearly flt = []).
Proof.
  intros H. split.
  - apply pred_2026_none. unfold ModernUI.yearly.
    destruct (has_column "Year" (columns flt)); [|simpl; lia].
    rewrite sort_values_ascending by apply groupby_size_ascending.
    now rewrite length_groupby_size.
  - intros E. unfold ModernUI.yearly. rewrite E.
    destruct (has_column "Year" (columns flt)); reflexivity.
Qed.

Lemma C3_insufficient_data_witness :
  (length (distinct_years (rows Examples.df_undated)) < 5)%nat /\
  ModernUI.pred_2026 (ModernUI.yearly Examples.df_undated) = None.
Proof.
  split; [simpl; lia|].
  apply (C3_insufficient_data Examples.df_undated). simpl. lia.
Defined.



(** C6, as the script has it.  With the year slider on the full observed
    range and every offered crime type selected, the filters keep the
    records with a known year and, when some crime type is offered, a
    crime-type label; they keep every record with a known year when none
    of those lacks a label. *)
Theorem C6_full_selection df lo hi :
  has_column "Year" (columns df) = true ->
  has_column "Primary Type" (columns df) = true ->
  ModernUI.min_y df = Some lo ->
  ModernUI.max_y df = Some hi ->
  let flt := ModernUI.filtered df (lo, hi) (ModernUI.types df) in
  rows flt = filter (kept_by_full_selection (ModernUI.types df)) (rows df) /\
  ((forall r, In r (rows df) -> parseable r = true -> labelled r = true) ->
   rows flt = filter parseable (rows df)).
Proof.
  intros HY HT Hlo Hhi flt.
  assert (E : rows flt = filter (kept_by_full_selection (ModernUI.types df)) (rows df)).
  { unfold flt. rewrite filtered_rows by assumption.
    apply filter_ext_in. intros r Hr. now apply meets_full_selection. }
  split; [exact E|]. intros Hlab. rewrite E.
  apply filter_ext_in. intros r Hr. unfold kept_by_full_selection.
  destruct (parseable r) eqn:P; [|reflexivity].
  now rewrite (Hlab r Hr P).
Qed.

Lemma C6_full_selection_witness :
  has_column "Year" (columns Examples.df_undated) = true /\
  has_column "Primary Type" (columns Examples.df_undated) = true /\
  ModernUI.min_y Examples.df_undated = Some 2020 /\
  ModernUI.max_y Examples.df_undated = Some 2020 /\
  rows (ModernUI.filtered Examples.df_undated (2020, 2020)
          (ModernUI.types Examples.df_undated)) =
    filter (kept_by_full_selection (ModernUI.types Examples.df_undated))
      (rows Examples.df_undated).
Proof.
  repeat (split; [reflexivity|]).
  exact (proj1 (C6_full_selection Examples.df_undated 2020 2020
                  eq_refl eq_refl eq_refl eq_refl)).
Defined.

(** A record of 2020 without a crime type has a known year but is not
    kept by the full selection. *)
Lemma C6_counterexample :
  ModernUI.min_y Examples.df_unlabelled = Some 2020 /\
  ModernUI.max_y Examples.df_unlabelled = Some 2021 /\
  ModernUI.types Examples.df_unlabelled = ["THEFT"%string] /\
  rows (ModernUI.filtered Examples.df_unlabelled (2020, 2021)
          (ModernUI.types Examples.df_unlabelled)) = [Examples.theft_2021] /\
  filter parseable (rows Examples.df_unlabelled) =
    [Examples.unlabelled_2020; Examples.theft_2021] /\
  rows (ModernUI.filtered Examples.df_unlabelled (2020, 2021)
          (ModernUI.types Examples.df_unlabelled)) <>
    filter parseable (rows Examples.df_unlabelled).
Proof.
  repeat (split; [reflexivity|]). vm_compute. discriminate.
Qed.

(** C8, as the scripts have it.  Loading turns a date that does not
    parse into [NaT] and its year into [<NA>] and keeps the record: the
    load succeeds when the file is there.  For every choice of filters
    such a record is in neither the filtered frame nor the yearly
    summary, and it is not counted in "Total incidents" either, which is
    the size of the filtered frame and equals the sum of the yearly
    counts. *)
Theorem C8_unparsed_dates (read_csv : string -> option Csv)
    (parse_datetime : string -> option Timestamp) (csv : Csv) :
  read_csv "crimes.csv"%string = Some csv ->
  has_column "Date" (csv_columns csv) = true ->
  let df := ModernUI.prepare parse_datetime csv in
  App.load_data read_csv parse_datetime = Some df /\
  ModernUI.load_crimes read_csv parse_datetime = Some df /\
  has_column "Year" (columns df) = true /\
  length (rows df) = length (csv_rows csv) /\
  (forall k c, nth_error (csv_rows csv) k = Some c ->
     exists r, nth_error (rows df) k = Some r /\
       Date r = ModernUI.to_datetime parse_datetime (csv_Date c) /\
       Year r = option_map dt_year (Date r) /\
       Primary_Type r = csv_Primary_Type c) /\
  forall year_range selected_types,
    let flt := App.filtered df year_range selected_types in
    (forall r, In r (rows flt) -> Date r <> None /\ Year r <> None) /\
    App.yearly flt = Some (ModernUI.yearly flt) /\
    (forall y, lookup y (ModernUI.yearly flt) =
       let n := Z.of_nat (length (filter (of_year y) (rows flt))) in
       if 0 <? n then Some n else None) /\
    App.total_incidents flt = zsum (map snd (ModernUI.yearly flt)).
Proof.
  intros Hread HD df.
  assert (Edf : df = {| columns := set_column "Year" (csv_columns csv);
                        rows := ModernUI.frame_rows parse_datetime true 0 (csv_rows csv) |}).
  { unfold df, ModernUI.prepare. now rewrite HD. }
  assert (HY : has_column "Year" (columns df) = true).
  { rewrite Edf. cbn [columns]. unfold set_column.
    destruct (has_column "Year" (csv_columns csv)) eqn:E; [exact E|].
    unfold has_column. rewrite existsb_app. simpl. apply orb_true_r. }
  split; [|split; [|split; [exact HY|split; [|split]]]].
  - unfold App.load_data, App.possible_paths. cbn [App.load_from]. now rewrite Hread.
  - unfold ModernUI.load_crimes. now rewrite Hread.
  - rewrite Edf. apply frame_rows_length.
  - intros k c Hk. rewrite Edf. cbn [rows].
    destruct (frame_rows_nth parse_datetime _ 0%nat k c Hk) as (r & Hr & _ & Hrest).
    exists r. split; [exact Hr|exact Hrest].
  - intros year_range selected_types flt.
    assert (HYf : has_column "Year" (columns flt) = true).
    { unfold flt. rewrite app_filtered_eq. now rewrite filtered_columns. }
    assert (Hpars : forall r, In r (rows flt) -> parseable r = true).
    { intros r Hr. unfold flt in Hr. rewrite app_filtered_eq in Hr.
      now apply filtered_parseable in Hr. }
    split; [|split; [|split]].
    + intros r Hr. pose proof (Hpars r Hr) as P. unfold parseable in P.
      assert (Hin : In r (rows df)).
      { unfold flt in Hr. rewrite app_filtered_eq in Hr. revert Hr.
        unfold ModernUI.filtered. cbn [columns Pandas.copy]. rewrite HY.
        cbn [columns Pandas.getitem_mask Pandas.copy].
        destruct (has_column "Primary Type" (columns df) && truthy selected_types);
          cbn [rows Pandas.getitem_mask Pandas.copy]; rewrite ?filter_In; tauto. }
      rewrite Edf in Hin. cbn [rows] in Hin.
      pose proof (frame_rows_year parse_datetime _ _ _ Hin) as Ey.
      destruct (Year r); [|discriminate]. split; [|discriminate].
      destruct (Date r); discriminate.
    + unfold App.yearly. rewrite HYf. now rewrite yearly_groupby.
    + intros y. rewrite yearly_groupby by exact HYf.
      rewrite lookup_groupby_size, count_year_of_year. reflexivity.
    + rewrite yearly_groupby by exact HYf.
      rewrite zsum_groupby_size, dropna_years.
      rewrite (filter_all parseable _ Hpars). reflexivity.
Qed.

Lemma C8_unparsed_dates_witness :
  has_column "Date" (csv_columns Examples.csv_undated) = true /\
  rows (ModernUI.prepare Examples.parse_sample Examples.csv_undated) =
    [Examples.undated_theft; Examples.theft_2020] /\
  App.load_data (fun _ => Some Examples.csv_undated) Examples.parse_sample =
    Some (ModernUI.prepare Examples.parse_sample Examples.csv_undated).
Proof.
  split; [reflexivity|]. split; [reflexivity|].
  exact (proj1 (C8_unparsed_dates (fun _ => Some Examples.csv_undated)
                  Examples.parse_sample Examples.csv_undated eq_refl eq_refl)).
Defined.

(** A record whose date did not parse is in no filtered frame, so
    "Total incidents" never counts it: of the two records of the sample
    frame it shows one at most. *)
Lemma C8_counterexample :
  In Examples.undated_theft (rows Examples.df_undated) /\
  Date Examples.undated_theft = None /\
  len Examples.df_undated = 2 /\
  App.total_incidents (App.filtered Examples.df_undated (2020, 2020) []) = 1 /\
  (forall year_range selected_types,
     ~ In Examples.undated_theft
         (rows (App.filtered Examples.df_undated year_range selected_types))) /\
  ~ (exists df year_range selected_types r,
       has_column "Year" (columns df) = true /\
       Year r = None /\
       In r (rows (App.filtered df year_range selected_types))).
Proof.
  split; [now left|]. split; [reflexivity|]. split; [reflexivity|].
  split; [reflexivity|]. split.
  - intros year_range selected_types Hin. rewrite app_filtered_eq in Hin.
    apply filtered_parseable in Hin; [discriminate|reflexivity].
  - intros (df & year_range & selected_types & r & HY & Hna & Hin).
    rewrite app_filtered_eq in Hin. apply filtered_parseable in Hin; [|exact HY].
    unfold parseable in Hin. rewrite Hna in Hin. discriminate.
Qed.

(** C7. A run of the filter and yearly-summary steps allocates its
    results and writes to no object that exists: the frame behind [df]
    is the same afterwards.  The results are the values of
    [ModernUI.filtered] and [ModernUI.yearly] on the content of [df] and
    the criteria, so a second run, on the heap the first one left, gives
    the same filtered frame and the same yearly summary. *)
Theorem C7_filter_aggregate_pure (h : Script.Heap) (df : Script.ref) (d : DataFrame)
    year_range selected_types :
  nth_error h df = Some (Script.Frame d) ->
  exists f1 y1 h1 f2 y2 h2,
    Script.filter_aggregate df year_range selected_types h = Some ((f1, y1), h1) /\
    Script.filter_aggregate df year_range selected_types h1 = Some ((f2, y2), h2) /\
    nth_error h1 f1 = Some (Script.Frame (ModernUI.filtered d year_range selected_types)) /\
    nth_error h2 f2 = nth_error h1 f1 /\
    nth_error h1 y1 =
      Some (Script.Counts
              (ModernUI.yearly (ModernUI.filtered d year_range selected_types))) /\
    nth_error h2 y2 = nth_error h1 y1 /\
    (forall p o, nth_error h p = Some o ->
       nth_error h1 p = Some o /\ nth_error h2 p = Some o) /\
    nth_error h1 df = Some (Script.Frame d) /\
    nth_error h2 df = Some (Script.Frame d) /\
    f1 <> df /\ y1 <> df /\
    App.filtered d year_range selected_types =
      ModernUI.filtered d year_range selected_types.
Proof.
  intros Hdf.
  destruct (filter_aggregate_ok h df d year_range selected_types Hdf)
    as (f1 & y1 & h1 & Hrun1 & Hg1 & Hf1 & Hy1 & Hlf1 & Hly1).
  pose proof (grows_nth_error _ _ _ _ Hg1 Hdf) as Hdf1.
  destruct (filter_aggregate_ok h1 df d year_range selected_types Hdf1)
    as (f2 & y2 & h2 & Hrun2 & Hg2 & Hf2 & Hy2 & _ & _).
  assert (Hlt : (df < length h)%nat) by (apply nth_error_Some; congruence).
  exists f1, y1, h1, f2, y2, h2.
  repeat (split; [first [eassumption | congruence | lia]|]).
  split.
  - intros p o Hp. pose proof (grows_nth_error _ _ _ _ Hg1 Hp) as Hp1.
    split; [exact Hp1|]. exact (grows_nth_error _ _ _ _ Hg2 Hp1).
  - repeat (split; [first [eassumption | congruence | lia]|]).
    split; [exact (grows_nth_error _ _ _ _ Hg2 Hdf1)|].
    repeat (split; [lia|]). reflexivity.
Qed.

Lemma C7_filter_aggregate_pure_witness :
  nth_error Examples.heap_undated 0%nat = Some (Script.Frame Examples.df_undated) /\
  exists f1 y1 h1 f2 y2 h2,
    Script.filter_aggregate 0%nat (2020, 2021) [] Examples.heap_undated =
      Some ((f1, y1), h1) /\
    Script.filter_aggregate 0%nat (2020, 2021) [] h1 = Some ((f2, y2), h2) /\
    nth_error h2 f2 = nth_error h1 f1 /\
    nth_error h2 y2 = nth_error h1 y1 /\
    nth_error h2 0%nat = Some (Script.Frame Examples.df_undated).
Proof.
  split; [reflexivity|].
  destruct (C7_filter_aggregate_pure Examples.heap_undated 0%nat Examples.df_undated
              (2020, 2021) [] eq_refl)
    as (f1 & y1 & h1 & f2 & y2 & h2 & R1 & R2 & _ & E1 & _ & E2 & _ & _ & D2 & _).
  exists f1, y1, h1, f2, y2, h2. repeat split; assumption.
Defined.

End Claims.

(* ================================================================== *)
(** * The projection on doubles *)

Section Binary64Facts.
Import Pandas Numpy Spec.

Lemma Qfloor_unique (v : Q) (n : Z) :
  (inject_Z n <= v)%Q -> (v < inject_Z (n + 1))%Q -> Qfloor v = n.
Proof.
  intros Hlo Hhi. pose proof (Qfloor_le v) as Flo. pose proof (Qlt_floor v) as Fhi.
  assert (inject_Z n < inject_Z (Qfloor v + 1))%Q as H1 by lra.
  assert (inject_Z (Qfloor v) < inject_Z (n + 1))%Q as H2 by lra.
  rewrite <- Zlt_Qlt in H1, H2. lia.
Qed.

(** A number less than 1/2 away from an integer is rounded to it. *)
Lemma round_near_integer (v : Q) (n : Z) :
  (v - inject_Z n < 1 # 2)%Q -> (inject_Z n - v < 1 # 2)%Q -> round v = n.
Proof.
  intros Hhi Hlo. unfold round.
  destruct (Qlt_le_dec v (inject_Z n)) as [Hlt|Hge].
  - assert (E : Qfloor v = n - 1).
    { apply Qfloor_unique.
      - unfold Z.sub. rewrite inject_Z_plus, inject_Z_opp. change (inject_Z 1) with 1%Q. lra.
      - replace (n - 1 + 1) with n by lia. exact Hlt. }
    rewrite E.
    assert (((v - inject_Z (n - 1)) ?= (1 # 2))%Q = Gt) as ->; [|lia].
    apply (proj1 (Qgt_alt _ _)).
    unfold Z.sub. rewrite inject_Z_plus, inject_Z_opp. change (inject_Z 1) with 1%Q. lra.
  - assert (E : Qfloor v = n).
    { apply Qfloor_unique; [exact Hge|].
      rewrite inject_Z_plus. change (inject_Z 1) with 1%Q. lra. }
    rewrite E.
    assert (((v - inject_Z n) ?= (1 # 2))%Q = Lt) as ->; [|reflexivity].
    apply (proj1 (Qlt_alt _ _)). exact Hhi.
Qed.

(** [round] of a double: its value rounded, when it has one. *)
Lemma round_float_value f v :
  float_value f = Some v -> round_float f = Done (round v).
Proof.
  unfold round_float, float_value. destruct (Prim2SF f); try discriminate.
  - intros [= <-]. reflexivity.
  - intros [= <-]. reflexivity.
Qed.

Lemma round_float_no_value f :
  float_value f = None -> exists exn, round_float f = Raised exn.
Proof.
  unfold round_float, float_value. destruct (Prim2SF f); try discriminate; eauto.
Qed.

Variable polyfit : list Z -> list Z -> float * float.

(** With five years or more, a number for 2026 gives a projection: that
    number rounded and clamped. *)
Lemma pred_2026_binary64_some yearly v :
  (5 <= length yearly)%nat ->
  float_value (ModernUI.line_at_2026 polyfit (tail 5 yearly)) = Some v ->
  ModernUI.pred_2026_binary64 polyfit yearly = Done (Some (clamp (round v))).
Proof.
  intros H Hv. unfold ModernUI.pred_2026_binary64.
  destruct (Z.leb_spec 5 (Z.of_nat (length yearly))) as [_|]; [|lia].
  cbn zeta. rewrite (round_float_value _ _ Hv). f_equal. f_equal.
  unfold clamp. destruct (Z.ltb_spec (round v) 0); lia.
Qed.

Lemma pred_2026_binary64_raises yearly :
  (5 <= length yearly)%nat ->
  float_value (ModernUI.line_at_2026 polyfit (tail 5 yearly)) = None ->
  exists exn, ModernUI.pred_2026_binary64 polyfit yearly = Raised exn.
Proof.
  intros H Hv. unfold ModernUI.pred_2026_binary64.
  destruct (Z.leb_spec 5 (Z.of_nat (length yearly))) as [_|]; [|lia].
  cbn zeta. destruct (round_float_no_value _ Hv) as [exn ->]. eauto.
Qed.

Lemma pred_2026_binary64_none yearly :
  (length yearly < 5)%nat ->
  ModernUI.pred_2026_binary64 polyfit yearly = Done None.
Proof.
  intros H. unfold ModernUI.pred_2026_binary64.
  destruct (Z.leb_spec 5 (Z.of_nat (length yearly))); [lia|reflexivity].
Qed.

(** Where numpy is accurate and the least-squares line is at an integer
    in 2026, the projection is that integer, clamped. *)
Lemma pred_2026_binary64_integer yearly n :
  (5 <= length yearly)%nat ->
  accurate polyfit (tail 5 yearly) ->
  (fitted_value (tail 5 yearly) 2026 == inject_Z n)%Q ->
  ModernUI.pred_2026_binary64 polyfit yearly = Done (Some (clamp n)).
Proof.
  intros H (v & Hv & Hhi & Hlo) En.
  rewrite (pred_2026_binary64_some yearly v H Hv). do 3 f_equal.
  apply round_near_integer; rewrite <- En; assumption.
Qed.

(** The least-squares line through points of a line, at 2026. *)
Lemma fitted_value_line recent alpha beta :
  ascending recent -> (2 <= length recent)%nat ->
  (forall p, In p recent -> snd p = alpha * fst p + beta) ->
  (fitted_value recent 2026 == inject_Z (alpha * 2026 + beta))%Q.
Proof.
  intros Hasc Hlen Hline.
  assert (Hy : map snd recent = map (fun z => alpha * z + beta) (map fst recent)).
  { rewrite map_map. apply map_ext_in. intros p Hp. now apply Hline. }
  assert (Hsp : 0 < spread (map fst recent)) by now apply ascending_spread_pos.
  destruct (polyfit1_line alpha beta _ Hsp) as [Ha Hb].
  unfold fitted_value. rewrite Hy, Ha, Hb.
  rewrite inject_Z_plus, inject_Z_mult. reflexivity.
Qed.

End Binary64Facts.

Section ProjectionClaims.
Import Pandas Numpy Spec.

(** C9. With five years or more the double that is rounded is
    [coeffs[0] * 2026 + coeffs[1]], whatever the last year of the
    summary.  Where numpy is accurate and the last five counts lie on a
    line [alpha * year + beta], the projection is the clamped value of
    that line at 2026: for 2011..2015 with counts 100..140 it is 250, the
    value at 2026, not the 150 of 2016. *)
Theorem C9_target_year_is_2026 (polyfit : list Z -> list Z -> float * float) yearly :
  (5 <= length yearly)%nat ->
  let recent := tail 5 yearly in
  let coeffs := polyfit (map fst recent) (map snd recent) in
  (forall v,
     float_value (PrimFloat.add (PrimFloat.mul (fst coeffs) 2026%float) (snd coeffs))
       = Some v ->
     ModernUI.pred_2026_binary64 polyfit yearly = Done (Some (clamp (round v)))) /\
  (forall alpha beta,
     ascending yearly ->
     (forall p, In p recent -> snd p = alpha * fst p + beta) ->
     accurate polyfit recent ->
     ModernUI.pred_2026_binary64 polyfit yearly =
       Done (Some (clamp (alpha * 2026 + beta)))) /\
  (accurate polyfit Examples.rising_early ->
   ModernUI.pred_2026_binary64 polyfit Examples.rising_early = Done (Some 250)) /\
  ModernUI.pred_2026_binary64 Examples.polyfit_rising_early Examples.rising_early =
    Done (Some 250).
Proof.
  intros Hlen recent coeffs. split; [|split; [|split]].
  - intros v Hv. now apply pred_2026_binary64_some.
  - intros alpha beta Hasc Hline Hacc.
    apply pred_2026_binary64_integer; [exact Hlen|exact Hacc|].
    assert (Hrec : ascending recent).
    { pose proof (tail_split 5 yearly) as E. fold recent in E.
      rewrite E in Hasc. now apply ascending_app in Hasc. }
    assert (Hlen5 : length recent = 5%nat) by now apply length_tail.
    apply fitted_value_line; [exact Hrec|unfold recent in *; lia|exact Hline].
  - intros Hacc.
    apply (pred_2026_binary64_integer polyfit Examples.rising_early 250);
      [vm_compute; lia|exact Hacc|vm_compute; reflexivity].
  - vm_compute. reflexivity.
Qed.

Lemma C9_target_year_is_2026_witness :
  (5 <= length Examples.rising_early)%nat /\
  ModernUI.pred_2026_binary64 Examples.polyfit_rising_early Examples.rising_early =
    Done (Some (clamp (10 * 2026 + -20010))).
Proof.
  split; [simpl; lia|].
  refine (proj1 (proj2 (C9_target_year_is_2026 Examples.polyfit_rising_early
                          Examples.rising_early _)) 10 (-20010) _ _ _).
  - simpl. lia.
  - simpl. lia.
  - intros p Hp. simpl in Hp.
    repeat (destruct Hp as [<-|Hp]; [reflexivity|]). destruct Hp.
  - eexists. split; [vm_compute; reflexivity|]. split; vm_compute; reflexivity.
Defined.

(** C10. With five years or more, whenever the double computed for 2026
    is a number the projection is that number rounded to a nearest
    integer, a tie to the even one, and then clamped at zero: an integer
    that is not negative.  A double that is no number makes [round]
    raise; no projection is returned then. *)
Theorem C10_rounded_then_clamped (polyfit : list Z -> list Z -> float * float) yearly :
  (5 <= length yearly)%nat ->
  let x := ModernUI.line_at_2026 polyfit (tail 5 yearly) in
  (forall v, float_value x = Some v ->
     exists p : Z,
       ModernUI.pred_2026_binary64 polyfit yearly = Done (Some p) /\
       p = Z.max 0 (round v) /\
       0 <= p /\
       (inject_Z (round v) - v <= 1 # 2)%Q /\ (v - inject_Z (round v) <= 1 # 2)%Q) /\
  (float_value x = None ->
   exists exn, ModernUI.pred_2026_binary64 polyfit yearly = Raised exn) /\
  (forall p, ModernUI.pred_2026_binary64 polyfit yearly = Done (Some p) -> 0 <= p).
Proof.
  intros Hlen x. split; [|split].
  - intros v Hv. exists (Z.max 0 (round v)).
    split; [now apply pred_2026_binary64_some|]. split; [reflexivity|].
    split; [lia|apply round_nearest].
  - now apply pred_2026_binary64_raises.
  - intros p Hp. destruct (float_value x) as [v|] eqn:Hv.
    + rewrite (pred_2026_binary64_some polyfit yearly v Hlen Hv) in Hp.
      injection Hp as <-. unfold clamp. lia.
    + destruct (pred_2026_binary64_raises polyfit yearly Hlen Hv) as [exn E].
      rewrite E in Hp. discriminate.
Qed.

Lemma C10_rounded_then_clamped_witness :
  (5 <= length Examples.halfway)%nat /\
  forall p,
    ModernUI.pred_2026_binary64 Examples.polyfit_inexact Examples.halfway =
      Done (Some p) -> 0 <= p.
Proof.
  split; [simpl; lia|].
  apply (C10_rounded_then_clamped Examples.polyfit_inexact Examples.halfway).
  simpl. lia.
Defined.

(** C2, as the script has it.  With five distinct years or more among
    the filtered records, the projection uses the five entries of the
    yearly summary with the largest years, whatever the order of the
    records, and passes their years and counts to [np.polyfit]; the
    line it approximates is the least-squares line through them.  The
    fit is evaluated at the year 2026, on doubles, and the result is
    rounded and clamped: where numpy is accurate it is within 1/2 of the
    least-squares value before rounding.  For 2020..2024 with counts
    100..140 the least-squares slope is 10 and the projection, for 2026,
    is 160. *)
Theorem C2_projection_at_2026 (polyfit : list Z -> list Z -> float * float) flt :
  has_column "Year" (columns flt) = true ->
  (5 <= length (distinct_years (rows flt)))%nat ->
  let agg := ModernUI.yearly flt in
  let recent := tail 5 agg in
  let line := polyfit1 (map fst recent) (map snd recent) in
  length recent = 5%nat /\
  (exists older, agg = older ++ recent /\
     forall o r, In o older -> In r recent -> fst o < fst r) /\
  (forall flt', columns flt' = columns flt ->
     Permutation (rows flt) (rows flt') -> ModernUI.yearly flt' = agg) /\
  (forall a' b', (sse (fst line) (snd line) recent <= sse a' b' recent)%Q) /\
  (forall v,
     float_value (ModernUI.line_at_2026 polyfit recent) = Some v ->
     ModernUI.pred_2026_binary64 polyfit agg = Done (Some (clamp (round v)))) /\
  (accurate polyfit recent ->
   exists v,
     ModernUI.pred_2026_binary64 polyfit agg = Done (Some (clamp (round v))) /\
     (v - (fst line * inject_Z 2026 + snd line) < 1 # 2)%Q /\
     (fst line * inject_Z 2026 + snd line - v < 1 # 2)%Q) /\
  (fst (polyfit1 (map fst Examples.rising) (map snd Examples.rising)) == 10)%Q /\
  (accurate polyfit Examples.rising ->
   ModernUI.pred_2026_binary64 polyfit Examples.rising = Done (Some 160)).
Proof.
  intros HY H5 agg recent line.
  assert (Hlen : (5 <= length agg)%nat).
  { unfold agg. now rewrite length_yearly. }
  assert (Hasc : ascending agg) by apply yearly_ascending.
  pose proof (tail_split 5 agg) as Esplit. fold recent in Esplit.
  assert (Hrec : ascending recent /\
                 forall o r, In o (firstn (length agg - 5) agg) -> In r recent -> fst o < fst r).
  { apply ascending_app. now rewrite <- Esplit. }
  assert (Hlen5 : length recent = 5%nat) by now apply length_tail.
  split; [exact Hlen5|]. split; [|split; [|split; [|split; [|split; [|split]]]]].
  - eexists. split; [exact Esplit|]. apply Hrec.
  - intros flt' Hcols Hperm. unfold agg.
    rewrite !yearly_groupby by (rewrite ?Hcols; exact HY).
    symmetry. apply groupby_size_perm. now apply Permutation_map.
  - intros a' b'. apply polyfit1_least_squares.
    apply ascending_spread_pos; [apply Hrec|lia].
  - intros v Hv. now apply pred_2026_binary64_some.
  - intros (v & Hv & Hhi & Hlo). exists v.
    split; [now apply pred_2026_binary64_some|]. split; assumption.
  - reflexivity.
  - intros Hacc.
    apply (pred_2026_binary64_integer polyfit Examples.rising 160);
      [vm_compute; lia|exact Hacc|vm_compute; reflexivity].
Qed.

Lemma C2_projection_at_2026_witness :
  has_column "Year" (columns Examples.df_seven_years) = true /\
  (5 <= length (distinct_years (rows Examples.df_seven_years)))%nat /\
  length (tail 5 (ModernUI.yearly Examples.df_seven_years)) = 5%nat.
Proof.
  split; [reflexivity|]. split; [vm_compute; lia|].
  refine (proj1 (C2_projection_at_2026 Examples.polyfit_inexact
                   Examples.df_seven_years eq_refl _)).
  vm_compute. lia.
Defined.

(** The projection of 2020..2024 with counts 100..140 is 160, the value
    of the line at 2026, wherever numpy is accurate; one year beyond
    2024 the line is at 150. *)
Lemma C2_counterexample :
  latest_year Examples.rising + 1 = 2025 /\
  clamp (round (fitted_value (tail 5 Examples.rising)
                  (latest_year Examples.rising + 1))) = 150 /\
  accurate Examples.polyfit_rising (tail 5 Examples.rising) /\
  ModernUI.pred_2026_binary64 Examples.polyfit_rising Examples.rising =
    Done (Some 160) /\
  (forall polyfit,
     accurate polyfit (tail 5 Examples.rising) ->
     ModernUI.pred_2026_binary64 polyfit Examples.rising = Done (Some 160) /\
     ModernUI.pred_2026_binary64 polyfit Examples.rising <>
       Done (Some (clamp (round (fitted_value (tail 5 Examples.rising)
                                   (latest_year Examples.rising + 1)))))).
Proof.
  split; [reflexivity|]. split; [reflexivity|]. split; [|split].
  - eexists. split; [vm_compute; reflexivity|]. split; vm_compute; reflexivity.
  - vm_compute. reflexivity.
  - intros polyfit Hacc.
    assert (E : ModernUI.pred_2026_binary64 polyfit Examples.rising = Done (Some 160)).
    { apply (pred_2026_binary64_integer polyfit Examples.rising 160);
        [vm_compute; lia|exact Hacc|vm_compute; reflexivity]. }
    split; [exact E|]. rewrite E. vm_compute. discriminate.
Qed.

End ProjectionClaims.

(* ================================================================== *)
(** * Loading, further *)

Section MoreLoading.
Import Pandas Spec.

Variable parse_datetime : string -> option Timestamp.

Lemma load_from_raising_none (read : string -> ReadResult) paths :
  App.load_from_raising read parse_datetime paths = Done None <->
  forall p, In p paths -> read p = FileNotFound.
Proof.
  induction paths as [|p paths IH]; simpl.
  - split; [intros _ p []|reflexivity].
  - destruct (read p) eqn:E.
    + split; [discriminate|]. intros H. specialize (H p (or_introl eq_refl)). congruence.
    + rewrite IH. split.
      * intros H q [<-|Hq]; [exact E|now apply H].
      * intros H q Hq. apply H. now right.
    + split; [discriminate|]. intros H. specialize (H p (or_introl eq_refl)). congruence.
Qed.

Lemma load_from_raising_some (read : string -> ReadResult) paths df :
  App.load_from_raising read parse_datetime paths = Done (Some df) ->
  exists before p after csv,
    paths = before ++ p :: after /\
    (forall q, In q before -> read q = FileNotFound) /\
    read p = Read csv /\
    df = ModernUI.prepare parse_datetime csv.
Proof.
  induction paths as [|p paths IH]; simpl; [discriminate|].
  destruct (read p) as [csv| |exn] eqn:E.
  - intros [= <-]. exists [], p, paths, csv. repeat split; auto. intros q [].
  - intros H. destruct (IH H) as (before & p' & after & csv & -> & Hb & Hp & ->).
    exists (p :: before), p', after, csv. repeat split; auto.
    intros q [<-|Hq]; [exact E|now apply Hb].
  - discriminate.
Qed.

Lemma load_from_raising_raised (read : string -> ReadResult) paths exn :
  App.load_from_raising read parse_datetime paths = Raised exn <->
  exists before p after,
    paths = before ++ p :: after /\
    (forall q, In q before -> read q = FileNotFound) /\
    read p = ReadError exn.
Proof.
  induction paths as [|p paths IH]; simpl.
  - split; [discriminate|]. intros (before & p & after & E & _). destruct before; discriminate.
  - destruct (read p) as [csv| |e] eqn:E.
    + split; [discriminate|]. intros (before & p' & after & Ep & Hb & Hp).
      destruct before as [|b before]; injection Ep as Eb Er.
      * congruence.
      * specialize (Hb b (or_introl eq_refl)). congruence.
    + rewrite IH. split.
      * intros (before & p' & after & -> & Hb & Hp).
        exists (p :: before), p', after. repeat split; auto.
        intros q [<-|Hq]; [exact E|now apply Hb].
      * intros (before & p' & after & Ep & Hb & Hp).
        destruct before as [|b before]; injection Ep as Eb Er; [congruence|].
        exists before, p', after. repeat split; auto. intros q Hq. apply Hb. now right.
    + split.
      * intros [= <-]. exists [], p, paths. repeat split; auto. intros q [].
      * intros (before & p' & after & Ep & Hb & Hp).
        destruct before as [|b before]; injection Ep as Eb Er; [congruence|].
        specialize (Hb b (or_introl eq_refl)). congruence.
Qed.

Lemma load_from_raising_plain (read : string -> ReadResult) paths :
  (forall p exn, In p paths -> read p <> ReadError exn) ->
  App.load_from_raising read parse_datetime paths =
  Done (App.load_from (App.found_or_missing read) parse_datetime paths).
Proof.
  induction paths as [|p paths IH]; intros H; simpl; [reflexivity|].
  unfold App.found_or_missing at 1.
  destruct (read p) as [csv| |exn] eqn:E.
  - reflexivity.
  - apply IH. intros q exn Hq. apply H. now right.
  - exfalso. apply (H p exn); [now left|exact E].
Qed.

(** X1. [load_data] of app.py tries its four paths in order and skips
    the missing files only.  It stops exactly when every file is
    missing; it returns the prepared content of the first file that is
    there when that file can be read; and an exception other than
    [FileNotFoundError] on the first file that is there is not caught:
    the script ends with it and the later paths are not tried. *)
Theorem X1_load_data_first_file (read : string -> ReadResult) :
  (App.load_data_raising read parse_datetime = Done None <->
   forall p, In p App.possible_paths -> read p = FileNotFound) /\
  (forall df, App.load_data_raising read parse_datetime = Done (Some df) ->
     exists before p after csv,
       App.possible_paths = before ++ p :: after /\
       (forall q, In q before -> read q = FileNotFound) /\
       read p = Read csv /\
       df = ModernUI.prepare parse_datetime csv) /\
  (forall exn, App.load_data_raising read parse_datetime = Raised exn <->
     exists before p after,
       App.possible_paths = before ++ p :: after /\
       (forall q, In q before -> read q = FileNotFound) /\
       read p = ReadError exn) /\
  ((forall p exn, In p App.possible_paths -> read p <> ReadError exn) ->
   App.load_data_raising read parse_datetime =
     Done (App.load_data (App.found_or_missing read) parse_datetime)).
Proof.
  split; [apply load_from_raising_none|]. split; [intros df; apply load_from_raising_some|].
  split; [intros exn; apply load_from_raising_raised|]. apply load_from_raising_plain.
Qed.

Lemma has_column_set_column name other cols :
  has_column name cols = true -> has_column name (set_column other cols) = true.
Proof.
  intros H. unfold set_column. destruct (has_column other cols); [exact H|].
  unfold has_column in *. rewrite existsb_app, H. reflexivity.
Qed.

Lemma has_column_set_column_same name cols :
  has_column name (set_column name cols) = true.
Proof.
  unfold set_column. destruct (has_column name cols) eqn:E; [exact E|].
  unfold has_column. rewrite existsb_app. simpl. rewrite String.eqb_refl.
  apply orb_true_r.
Qed.

End MoreLoading.

(* ================================================================== *)
(** * The sidebar and the filters, further *)

Section Sidebar.
Import Pandas Spec.

Lemma fold_left_min_In l : forall z,
  fold_left Z.min l z = z \/ In (fold_left Z.min l z) l.
Proof.
  induction l as [|a l IH]; intros z; simpl; [now left|].
  destruct (IH (Z.min z a)) as [E|Hin]; [|now right; right].
  rewrite E. destruct (Z.min_spec z a) as [[_ ->]|[_ ->]]; auto.
Qed.

Lemma fold_left_max_In l : forall z,
  fold_left Z.max l z = z \/ In (fold_left Z.max l z) l.
Proof.
  induction l as [|a l IH]; intros z; simpl; [now left|].
  destruct (IH (Z.max z a)) as [E|Hin]; [|now right; right].
  rewrite E. destruct (Z.max_spec z a) as [[_ ->]|[_ ->]]; auto.
Qed.

Lemma series_min_In l lo : series_min l = Some lo -> In (Some lo) l.
Proof.
  unfold series_min. intros H. apply In_dropna.
  destruct (dropna l) as [|z rest]; [discriminate|]. injection H as <-.
  destruct (fold_left_min_In rest z) as [->|Hin]; [now left|now right].
Qed.

Lemma series_max_In l hi : series_max l = Some hi -> In (Some hi) l.
Proof.
  unfold series_max. intros H. apply In_dropna.
  destruct (dropna l) as [|z rest]; [discriminate|]. injection H as <-.
  destruct (fold_left_max_In rest z) as [->|Hin]; [now left|now right].
Qed.

Lemma dropna_nil {A : Type} (l : list (option A)) :
  dropna l = [] <-> forall v, In v l -> v = None.
Proof.
  induction l as [|[a|] l IH]; simpl.
  - split; [intros _ v []|reflexivity].
  - split; [discriminate|]. intros H. specialize (H (Some a) (or_introl eq_refl)).
    discriminate.
  - rewrite IH. split.
    + intros H v [<-|Hv]; [reflexivity|now apply H].
    + intros H v Hv. apply H. now right.
Qed.

(** X3. The year slider has bounds exactly when some record has a known
    year.  The bounds are years of records, the lower one is not above
    the upper one, and every known year lies between them. *)
Theorem X3_slider_bounds df :
  (ModernUI.min_y df = None <-> forall r, In r (rows df) -> Year r = None) /\
  (ModernUI.min_y df = None <-> ModernUI.max_y df = None) /\
  (forall lo hi,
     ModernUI.min_y df = Some lo -> ModernUI.max_y df = Some hi ->
     lo <= hi /\
     (exists r, In r (rows df) /\ Year r = Some lo) /\
     (exists r, In r (rows df) /\ Year r = Some hi) /\
     (forall r y, In r (rows df) -> Year r = Some y -> lo <= y <= hi)).
Proof.
  unfold ModernUI.min_y, ModernUI.max_y.
  assert (Hnone : forall l : list (option Z), series_min l = None <-> dropna l = []).
  { intros l. unfold series_min. destruct (dropna l); split; congruence. }
  assert (Hnone' : forall l : list (option Z), series_max l = None <-> dropna l = []).
  { intros l. unfold series_max. destruct (dropna l); split; congruence. }
  split; [|split].
  - rewrite Hnone, dropna_nil. split.
    + intros H r Hr. apply H. now apply in_map.
    + intros H v Hv. apply in_map_iff in Hv. destruct Hv as (r & <- & Hr). now apply H.
  - now rewrite Hnone, Hnone'.
  - intros lo hi Hlo Hhi.
    pose proof (series_min_In _ _ Hlo) as Ilo. pose proof (series_max_In _ _ Hhi) as Ihi.
    split; [exact (series_max_ge _ _ _ Hhi Ilo)|].
    split; [|split].
    + apply in_map_iff in Ilo. destruct Ilo as (r & E & Hr). eauto.
    + apply in_map_iff in Ihi. destruct Ihi as (r & E & Hr). eauto.
    + intros r y Hr E.
      assert (Hy : In (Some y) (map Year (rows df))) by (rewrite <- E; now apply in_map).
      split; [exact (series_min_le _ _ _ Hlo Hy)|exact (series_max_ge _ _ _ Hhi Hy)].
Qed.

End Sidebar.

Section MoreFilters.
Import Pandas Spec.

Lemma filter_true {A : Type} (l : list A) : filter (fun _ => true) l = l.
Proof. induction l as [|a l IH]; [reflexivity|]. simpl. now rewrite IH. Qed.

(** The filtered frame, whatever columns the frame has. *)
Lemma filtered_frame df year_range selected_types :
  ModernUI.filtered df year_range selected_types =
  {| columns := columns df;
     rows := filter (passes (columns df) year_range selected_types) (rows df) |}.
Proof.
  unfold ModernUI.filtered, passes. cbn [columns Pandas.copy].
  destruct (has_column "Year" (columns df)); cbn [columns Pandas.getitem_mask Pandas.copy];
    destruct (has_column "Primary Type" (columns df));
    destruct selected_types as [|t rest]; cbn [truthy andb];
    unfold Pandas.getitem_mask, Pandas.copy; cbn [rows columns]; f_equal;
    rewrite ?filter_twice; try (apply filter_ext; intros r);
    rewrite ?year_mask_spec, ?andb_true_r; cbn [mask_true];
    rewrite ?isin_spec; try reflexivity; cbn [type_allowed andb];
    rewrite ?andb_true_r; try reflexivity.
  all: symmetry; apply filter_true.
Qed.

(** X4. The filters of app.py and modernUI.py never fail on a missing
    column: a frame without [Year] is not filtered by year, one without
    [Primary Type] not by type.  The result has the columns of the
    frame and, in their order, the rows that pass the filters whose
    column is there. *)
Theorem X4_filters_skip_missing_columns df year_range selected_types :
  App.filtered df year_range selected_types =
    ModernUI.filtered df year_range selected_types /\
  columns (App.filtered df year_range selected_types) = columns df /\
  rows (App.filtered df year_range selected_types) =
    filter (passes (columns df) year_range selected_types) (rows df) /\
  (has_column "Year" (columns df) = false ->
   has_column "Primary Type" (columns df) = false ->
   rows (App.filtered df year_range selected_types) = rows df).
Proof.
  split; [reflexivity|]. rewrite app_filtered_eq, filtered_frame. cbn [columns rows].
  split; [reflexivity|]. split; [reflexivity|].
  intros HY HT. unfold passes. rewrite HY, HT. apply filter_true.
Qed.

Lemma in_year_range_narrow lo hi lo' hi' r :
  lo <= lo' -> hi' <= hi ->
  in_year_range (lo', hi') r = true -> in_year_range (lo, hi) r = true.
Proof.
  unfold in_year_range. cbn [fst snd]. intros H1 H2. destruct (Year r); [|discriminate].
  rewrite !andb_true_iff. lia.
Qed.

(** X5. Filtering a filtered frame again, with a year range inside the
    first one and the same crime types, gives the frame that filtering
    the source with the inner range gives; with the same range it
    changes nothing. *)
Theorem X5_filter_again df lo hi lo' hi' selected_types :
  lo <= lo' -> hi' <= hi ->
  ModernUI.filtered (ModernUI.filtered df (lo, hi) selected_types)
    (lo', hi') selected_types =
  ModernUI.filtered df (lo', hi') selected_types.
Proof.
  intros H1 H2. rewrite !filtered_frame. cbn [columns rows]. f_equal.
  rewrite filter_twice. apply filter_ext. intros r. unfold passes.
  destruct (has_column "Year" (columns df));
    destruct (has_column "Primary Type" (columns df)); cbn [andb];
    rewrite ?andb_true_r.
  - destruct (in_year_range (lo', hi') r) eqn:E.
    + rewrite (in_year_range_narrow lo hi lo' hi' r H1 H2 E).
      destruct (type_allowed selected_types r); reflexivity.
    + cbn [andb]. rewrite andb_false_r. reflexivity.
  - destruct (in_year_range (lo', hi') r) eqn:E.
    + now rewrite (in_year_range_narrow lo hi lo' hi' r H1 H2 E).
    + apply andb_false_r.
  - destruct (type_allowed selected_types r); reflexivity.
  - reflexivity.
Qed.

Lemma X5_filter_again_witness :
  2019 <= 2020 /\ 2020 <= 2024 /\
  ModernUI.filtered (ModernUI.filtered Examples.df_undated (2019, 2024) [])
    (2020, 2020) [] =
  ModernUI.filtered Examples.df_undated (2020, 2020) [].
Proof.
  split; [lia|]. split; [lia|].
  apply (X5_filter_again Examples.df_undated 2019 2024 2020 2020 []); lia.
Defined.

End MoreFilters.

(* ================================================================== *)
(** * The yearly summary and the projection, further *)

Section MoreProjection.
Import Pandas Numpy Spec.

Lemma In_bump e y agg :
  In e (bump y agg) -> fst e = y \/ exists e', In e' agg /\ fst e' = fst e.
Proof.
  induction agg as [|[k c] rest IH]; simpl.
  - intros [<-|[]]. now left.
  - destruct (y ?= k) eqn:E; simpl.
    + apply Z.compare_eq in E. subst k. intros [<-|H]; [now left|].
      right. exists e. auto.
    + intros [<-|[<-|H]]; [now left| |]; right; eauto.
    + intros [<-|H]; [right; eauto|].
      destruct (IH H) as [->|(e' & He' & Ee)]; [now left|]. right. eauto.
Qed.

Lemma In_groupby_size e keys :
  In e (groupby_size keys) -> In (Some (fst e)) keys.
Proof.
  revert e. induction keys as [|[k|] keys IH]; intros e; simpl; [tauto| |auto].
  intros H. apply In_bump in H. destruct H as [E|(e' & He' & E)].
  - left. now rewrite E.
  - right. rewrite <- E. now apply IH.
Qed.

(** An ascending summary with its years in a range has no more entries
    than the range has years. *)
Lemma ascending_length_bound agg : forall lo hi,
  ascending agg ->
  (forall e, In e agg -> lo <= fst e <= hi) ->
  Z.of_nat (length agg) <= Z.max 0 (hi - lo + 1).
Proof.
  induction agg as [|e agg IH]; intros lo hi Hasc Hin; [simpl; lia|].
  pose proof (Hin e (or_introl eq_refl)) as He.
  pose proof (ascending_head_lt _ _ Hasc) as Hlt.
  specialize (IH (fst e + 1) hi (ascending_tail _ _ Hasc)).
  assert (Hb : forall e', In e' agg -> fst e + 1 <= fst e' <= hi).
  { intros e' He'. specialize (Hlt e' He'). specialize (Hin e' (or_intror He')). lia. }
  specialize (IH Hb). cbn [length]. lia.
Qed.

Lemma filtered_in_range df year_range selected_types r :
  has_column "Year" (columns df) = true ->
  In r (rows (ModernUI.filtered df year_range selected_types)) ->
  in_year_range year_range r = true.
Proof.
  intros HY. rewrite filtered_frame. cbn [rows]. rewrite filter_In.
  unfold passes. rewrite HY. intros [_ H]. now apply andb_true_iff in H.
Qed.

(** X6. With a [Year] column and a year range whose lower end is above
    its upper end, no record is kept: the filtered frame, the yearly
    summary and the total are empty and there is no projection. *)
Theorem X6_reversed_range df lo hi selected_types :
  has_column "Year" (columns df) = true ->
  hi < lo ->
  let flt := ModernUI.filtered df (lo, hi) selected_types in
  rows flt = [] /\
  ModernUI.yearly flt = [] /\
  ModernUI.total_crimes flt = 0 /\
  ModernUI.pred_2026 (ModernUI.yearly flt) = None.
Proof.
  intros HY Hrev flt.
  assert (E : rows flt = []).
  { destruct (rows flt) as [|r rest] eqn:Er; [reflexivity|]. exfalso.
    assert (Hin : In r (rows flt)) by (rewrite Er; now left).
    apply filtered_in_range in Hin; [|exact HY].
    unfold in_year_range in Hin. cbn [fst snd] in Hin.
    destruct (Year r); [|discriminate]. apply andb_true_iff in Hin. lia. }
  assert (Ey : ModernUI.yearly flt = []).
  { unfold ModernUI.yearly. rewrite E. destruct (has_column "Year" (columns flt)); reflexivity. }
  split; [exact E|]. split; [exact Ey|]. split.
  - unfold ModernUI.total_crimes, len. now rewrite E.
  - now rewrite Ey.
Qed.

Lemma X6_reversed_range_witness :
  has_column "Year" (columns Examples.df_seven_years) = true /\
  2018 < 2024 /\
  rows (ModernUI.filtered Examples.df_seven_years (2024, 2018) []) = [].
Proof.
  split; [reflexivity|]. split; [lia|].
  apply (X6_reversed_range Examples.df_seven_years 2024 2018 []); [reflexivity|lia].
Defined.

(** X7. With a [Year] column, every entry of the yearly summary of the
    filtered frame has its year in the selected range and a count of
    one or more, and the summary has no more entries than the range has
    years.  A range of fewer than five years never gets a projection. *)
Theorem X7_yearly_within_range df lo hi selected_types :
  has_column "Year" (columns df) = true ->
  let agg := ModernUI.yearly (ModernUI.filtered df (lo, hi) selected_types) in
  (forall e, In e agg -> lo <= fst e <= hi /\ 1 <= snd e) /\
  Z.of_nat (length agg) <= Z.max 0 (hi - lo + 1) /\
  (hi - lo < 4 -> ModernUI.pred_2026 agg = None).
Proof.
  intros HY agg.
  set (flt := ModernUI.filtered df (lo, hi) selected_types) in *.
  assert (HYf : has_column "Year" (columns flt) = true).
  { unfold flt. now rewrite filtered_columns. }
  assert (Eagg : agg = groupby_size (map Year (rows flt))).
  { unfold agg. now apply yearly_groupby. }
  assert (Hrange : forall e, In e agg -> lo <= fst e <= hi).
  { intros e He. rewrite Eagg in He. apply In_groupby_size in He.
    apply in_map_iff in He. destruct He as (r & Ey & Hr).
    apply filtered_in_range in Hr; [|exact HY].
    unfold in_year_range in Hr. rewrite Ey in Hr. cbn [fst snd] in Hr.
    apply andb_true_iff in Hr. lia. }
  assert (Hlen : Z.of_nat (length agg) <= Z.max 0 (hi - lo + 1)).
  { apply ascending_length_bound; [apply yearly_ascending|exact Hrange]. }
  split; [|split; [exact Hlen|]].
  - intros e He. split; [now apply Hrange|].
    rewrite Eagg in He. pose proof (counts_positive (map Year (rows flt))) as Hpos.
    rewrite Forall_forall in Hpos. specialize (Hpos e He). lia.
  - intros Hnarrow. apply pred_2026_none. lia.
Qed.

Lemma X7_yearly_within_range_witness :
  has_column "Year" (columns Examples.df_seven_years) = true /\
  Z.of_nat (length (ModernUI.yearly
    (ModernUI.filtered Examples.df_seven_years (2021, 2024) []))) <=
    Z.max 0 (2024 - 2021 + 1).
Proof.
  split; [reflexivity|].
  apply (X7_yearly_within_range Examples.df_seven_years 2021 2024 []). reflexivity.
Defined.

(** X8. The projection looks at the last five entries of the yearly
    summary only: earlier years do not change it. *)
Theorem X8_only_last_five (older recent : list (Z * Z)) :
  length recent = 5%nat ->
  ModernUI.pred_2026 (older ++ recent) = ModernUI.pred_2026 recent.
Proof.
  intros H5.
  assert (T : forall l : list (Z * Z), tail 5 (l ++ recent) = recent).
  { intros l. unfold tail. rewrite length_app, H5.
    replace (length l + 5 - 5)%nat with (length l + 0)%nat by lia.
    rewrite skipn_app, Nat.add_0_r, skipn_all.
    replace (length l - length l)%nat with 0%nat by lia. reflexivity. }
  rewrite !pred_2026_some by (rewrite ?length_app; lia).
  rewrite T. pose proof (T []) as T0. cbn [app] in T0. now rewrite T0.
Qed.

Lemma X8_only_last_five_witness :
  length Examples.rising = 5%nat /\
  ModernUI.pred_2026 ([(2018, 900); (2019, 5)] ++ Examples.rising) =
  ModernUI.pred_2026 Examples.rising.
Proof.
  split; [reflexivity|].
  apply (X8_only_last_five [(2018, 900); (2019, 5)] Examples.rising). reflexivity.
Defined.





End MoreProjection.

(* ================================================================== *)
(** * The overview cards of app.py *)

Section Cards.
Import Pandas Spec.

Lemma NoDup_unique l : NoDup (unique l).
Proof.
  induction l as [|s l IH]; simpl; constructor.
  - rewrite filter_In. intros [_ H]. now rewrite String.eqb_refl in H.
  - now apply NoDup_filter.
Qed.

Lemma NoDup_insert_string s l :
  ~ In s l -> NoDup l -> NoDup (insert_string s l).
Proof.
  induction l as [|h l IH]; intros Hs Hl; simpl.
  - constructor; [tauto|constructor].
  - destruct (String.leb s h); [now constructor|].
    inversion Hl as [|? ? Hh Hl']; subst. constructor.
    + rewrite In_insert_string. intros [->|H]; [|contradiction].
      apply Hs. now left.
    + apply IH; [|exact Hl']. intros H. apply Hs. now right.
Qed.

Lemma NoDup_sorted l : NoDup l -> NoDup (sorted l).
Proof.
  unfold sorted. induction 1 as [|s l Hs Hl IH]; simpl; [constructor|].
  apply NoDup_insert_string; [|exact IH]. fold (sorted l). now rewrite In_sorted.
Qed.

Lemma insert_string_ascending s l :
  labels_ascending l -> labels_ascending (insert_string s l).
Proof.
  induction l as [|h l IH]; intros Hl; simpl; [auto|].
  destruct (String.leb s h) eqn:E.
  - split; [exact E|exact Hl].
  - destruct Hl as [Hh Hl]. split; [|now apply IH].
    destruct l as [|h2 l]; simpl.
    + destruct (String.leb_total s h) as [H|H]; congruence.
    + destruct (String.leb s h2); [|exact Hh].
      destruct (String.leb_total s h) as [H|H]; congruence.
Qed.

Lemma sorted_ascending l : labels_ascending (sorted l).
Proof.
  unfold sorted. induction l as [|s l IH]; simpl; [exact I|].
  now apply insert_string_ascending.
Qed.

Lemma head_all {A : Type} n (l : list A) : (length l <= n)%nat -> head n l = l.
Proof. intros H. unfold head. now apply firstn_all2. Qed.

Lemma In_head {A : Type} n (l : list A) a : In a (head n l) -> In a l.
Proof.
  intros H. rewrite <- (firstn_skipn n l). apply in_or_app. now left.
Qed.

(** X10. The crime types offered in the sidebar are the labels that
    occur in the frame, each once, in ascending order; the preselected
    ones are the first twelve of them in app.py and the first ten in
    modernUI.py, hence all of them when there are no more. *)
Theorem X10_offered_types df :
  (forall t, In t (ModernUI.types df) <->
     exists r, In r (rows df) /\ Primary_Type r = Some t) /\
  NoDup (ModernUI.types df) /\
  labels_ascending (ModernUI.types df) /\
  (forall t, In t (App.default_types df) -> In t (ModernUI.types df)) /\
  (forall t, In t (ModernUI.default_types df) -> In t (ModernUI.types df)) /\
  ((length (ModernUI.types df) <= 12)%nat -> App.default_types df = ModernUI.types df) /\
  ((length (ModernUI.types df) <= 10)%nat ->
   ModernUI.default_types df = ModernUI.types df).
Proof.
  split; [intros t; apply In_types|]. split; [|split].
  - unfold ModernUI.types. apply NoDup_sorted, NoDup_unique.
  - apply sorted_ascending.
  - split; [|split; [|split]].
    + intros t. apply In_head.
    + intros t. apply In_head.
    + apply head_all.
    + apply head_all.
Qed.

(** X11. "Unique crime types" counts the distinct labels of the filtered
    records: never more than the labels the frame offers and, once
    crime types are selected, never more than the selected ones. *)
Theorem X11_unique_types_bounded df year_range selected_types :
  has_column "Primary Type" (columns df) = true ->
  exists n,
    App.unique_crime_types (App.filtered df year_range selected_types) = Some n /\
    0 <= n <= Z.of_nat (length (ModernUI.types df)) /\
    (selected_types <> [] -> n <= Z.of_nat (length selected_types)).
Proof.
  intros HT. rewrite app_filtered_eq. unfold App.unique_crime_types.
  rewrite filtered_columns, HT. eexists. split; [reflexivity|].
  unfold nunique. rewrite filtered_frame. cbn [rows].
  set (kept := filter (passes (columns df) year_range selected_types) (rows df)).
  pose proof (NoDup_unique (dropna (map Primary_Type kept))) as Hnd.
  split; [split; [lia|]|].
  - apply Nat2Z.inj_le. apply NoDup_incl_length; [exact Hnd|].
    intros t Ht. apply In_unique, In_dropna, in_map_iff in Ht.
    destruct Ht as (r & E & Hr). apply In_types. exists r. split; [|exact E].
    unfold kept in Hr. apply filter_In in Hr. tauto.
  - intros Hsel. apply Nat2Z.inj_le. apply NoDup_incl_length; [exact Hnd|].
    intros t Ht. apply In_unique, In_dropna, in_map_iff in Ht.
    destruct Ht as (r & E & Hr). unfold kept in Hr. apply filter_In in Hr.
    destruct Hr as [_ Hp]. unfold passes in Hp. rewrite HT in Hp.
    apply andb_true_iff in Hp. destruct Hp as [_ Hp].
    unfold type_allowed in Hp. rewrite E in Hp.
    destruct selected_types as [|t0 rest]; [congruence|].
    destruct (in_dec string_dec t (t0 :: rest)); [assumption|discriminate].
Qed.

Lemma X11_unique_types_bounded_witness :
  has_column "Primary Type" (columns Examples.df_undated) = true /\
  exists n,
    App.unique_crime_types
      (App.filtered Examples.df_undated (2020, 2020) ["THEFT"%string]) = Some n /\
    0 <= n <= Z.of_nat (length (ModernUI.types Examples.df_undated)) /\
    (["THEFT"%string] <> [] -> n <= Z.of_nat (length ["THEFT"%string])).
Proof.
  split; [reflexivity|].
  apply (X11_unique_types_bounded Examples.df_undated (2020, 2020) ["THEFT"%string]).
  reflexivity.
Defined.

Lemma fold_max_ge (l : list nat) x : In x l -> (x <= fold_right Nat.max 0 l)%nat.
Proof.
  induction l as [|a l IH]; simpl; [tauto|].
  intros [<-|H]; [lia|]. specialize (IH H). lia.
Qed.

Lemma fold_max_In (l : list nat) : l <> [] -> In (fold_right Nat.max 0%nat l) l.
Proof.
  induction l as [|a [|b l] IH]; intros H; [congruence| |].
  - simpl. left. lia.
  - specialize (IH ltac:(discriminate)). cbn [fold_right] in *.
    destruct (Nat.max_spec a (Nat.max b (fold_right Nat.max 0%nat l))) as [[_ E]|[_ E]];
      rewrite E; [right; exact IH|now left].
Qed.

Lemma count_label_absent s l : ~ In (Some s) l -> count_label s l = 0%nat.
Proof.
  unfold count_label. induction l as [|[t|] l IH]; intros H; simpl; [reflexivity| |].
  - destruct (String.eqb_spec s t) as [->|_].
    + exfalso. apply H. now left.
    + apply IH. intros Hin. apply H. now right.
  - apply IH. intros Hin. apply H. now right.
Qed.

(** The most frequent labels: labels of the column, none occurring less
    often than any label. *)
Lemma mode_spec l s :
  In s (mode l) ->
  In (Some s) l /\ forall t, (count_label t l <= count_label s l)%nat.
Proof.
  unfold mode. rewrite In_sorted, filter_In, In_unique, In_dropna.
  intros [Hin Htop]. apply Nat.eqb_eq in Htop. split; [exact Hin|].
  intros t. rewrite Htop.
  destruct (in_dec string_dec t (dropna l)) as [Ht|Ht].
  - apply fold_max_ge. apply in_map_iff. exists t. split; [reflexivity|].
    now apply In_unique.
  - rewrite (count_label_absent t l); [lia|]. now rewrite <- In_dropna.
Qed.

Lemma mode_nonempty l t : In (Some t) l -> mode l <> [].
Proof.
  intros Ht. unfold mode.
  set (labels := unique (dropna l)).
  set (counts := map (fun s => count_label s l) labels).
  assert (Hl : In t labels) by now apply In_unique, In_dropna.
  assert (Hc : counts <> []).
  { unfold counts. destruct labels; [destruct Hl|discriminate]. }
  pose proof (fold_max_In counts Hc) as Hm. unfold counts in Hm at 2.
  apply in_map_iff in Hm. destruct Hm as (s & Es & Hs).
  intros E.
  assert (Hin : In s (sorted (filter (fun s0 => Nat.eqb (count_label s0 l)
                                        (fold_right Nat.max 0%nat counts)) labels))).
  { apply In_sorted, filter_In. split; [exact Hs|]. now apply Nat.eqb_eq. }
  fold labels counts in E. rewrite E in Hin. destruct Hin.
Qed.

Lemma mode_empty l : (forall v, In v l -> v = None) -> mode l = [].
Proof.
  intros H. unfold mode. apply dropna_nil in H. rewrite H. reflexivity.
Qed.

(** X12. "Most common type", in a frame with the [Primary Type] column:
    an empty frame shows the dash; a frame with a labelled record shows
    a label of the frame that no other label outnumbers; a frame whose
    records all lack a label has no most frequent value to show and the
    lookup of the first one raises. *)
Theorem X12_most_common_type flt :
  has_column "Primary Type" (columns flt) = true ->
  (rows flt = [] -> App.most_common_type flt = Done (Some "–"%string)) /\
  (rows flt <> [] ->
   (forall r, In r (rows flt) -> Primary_Type r = None) ->
   App.most_common_type flt = Raised "KeyError") /\
  (forall r t, In r (rows flt) -> Primary_Type r = Some t ->
     exists s,
       App.most_common_type flt = Done (Some s) /\
       (exists r', In r' (rows flt) /\ Primary_Type r' = Some s) /\
       forall t', (count_label t' (map Primary_Type (rows flt)) <=
                   count_label s (map Primary_Type (rows flt)))%nat).
Proof.
  intros HT. unfold App.most_common_type. rewrite HT.
  assert (Hcols : columns flt <> []).
  { intros E. rewrite E in HT. discriminate. }
  assert (Hempty : rows flt <> [] -> empty flt = false).
  { unfold empty. destruct (rows flt); [congruence|].
    destruct (columns flt); [congruence|reflexivity]. }
  split; [|split].
  - intros E. unfold empty. rewrite E. reflexivity.
  - intros Hne Hall. rewrite (Hempty Hne). cbn [negb].
    rewrite mode_empty; [reflexivity|].
    intros v Hv. apply in_map_iff in Hv. destruct Hv as (r & <- & Hr). now apply Hall.
  - intros r t Hr Et.
    assert (Hne : rows flt <> []) by (intros E; rewrite E in Hr; destruct Hr).
    rewrite (Hempty Hne). cbn [negb].
    assert (Hin : In (Some t) (map Primary_Type (rows flt))).
    { rewrite <- Et. now apply in_map. }
    pose proof (mode_nonempty _ _ Hin) as Hm.
    destruct (mode (map Primary_Type (rows flt))) as [|s rest] eqn:Em; [congruence|].
    cbn [getitem_0]. exists s. split; [reflexivity|].
    assert (Hs : In s (mode (map Primary_Type (rows flt)))) by (rewrite Em; now left).
    apply mode_spec in Hs. destruct Hs as [Hs Hmax]. split; [|exact Hmax].
    apply in_map_iff in Hs. destruct Hs as (r' & E' & Hr'). eauto.
Qed.

Lemma X12_most_common_type_witness :
  has_column "Primary Type" (columns Examples.df_no_label) = true /\
  rows Examples.df_no_label <> [] /\
  (forall r, In r (rows Examples.df_no_label) -> Primary_Type r = None) /\
  App.most_common_type Examples.df_no_label = Raised "KeyError".
Proof.
  assert (Hne : rows Examples.df_no_label <> []) by discriminate.
  assert (Hall : forall r, In r (rows Examples.df_no_label) -> Primary_Type r = None).
  { intros r [<-|[]]. reflexivity. }
  split; [reflexivity|]. split; [exact Hne|]. split; [exact Hall|].
  exact (proj1 (proj2 (X12_most_common_type Examples.df_no_label eq_refl)) Hne Hall).
Defined.

End Cards.

(* ================================================================== *)
(** * app1.py: loading, filters and the forecast *)

Section Forecast.
Import Pandas Numpy Spec.

Variable read_csv : string -> option Csv.
Variable parse_datetime : string -> option Timestamp.

Lemma float_mask_spec year_range r :
  App1.ge_float (Year r) (fst year_range) && App1.le_float (Year r) (snd year_range)
  = in_year_range year_range r.
Proof.
  unfold App1.ge_float, App1.le_float, in_year_range.
  destruct (Year r); reflexivity.
Qed.

Lemma filter_filter_absorb {A : Type} (f g : A -> bool) (l : list A) :
  (forall a, In a l -> g a = true -> f a = true) ->
  filter g (filter f l) = filter g l.
Proof.
  intros H. rewrite filter_twice. apply filter_ext_in. intros a Ha.
  destruct (g a) eqn:E; [|apply andb_false_r]. now rewrite (H a Ha E).
Qed.

Lemma same_cell_eq a b : App1.same_cell a b = true <-> a = b.
Proof.
  destruct a as [s|], b as [t|]; simpl; try (split; congruence).
  rewrite String.eqb_eq. split; congruence.
Qed.

Lemma In_unique_na v l : In v (App1.unique_na l) <-> In v l.
Proof.
  induction l as [|w l IH]; simpl; [tauto|].
  rewrite filter_In, IH. split.
  - intros [E|[H _]]; auto.
  - intros [E|H]; [now left|].
    destruct (App1.same_cell w v) eqn:E; [left; now apply same_cell_eq|right].
    now split.
Qed.

Lemma existsb_isna l : existsb App1.isna l = true <-> In None l.
Proof.
  rewrite existsb_exists. split.
  - intros ([s|] & Hin & E); [discriminate|exact Hin].
  - intros H. exists None. split; [exact H|reflexivity].
Qed.

(** The offered crime types of app1.py: given when no label is missing,
    an exception when a missing label stands beside a label. *)
Lemma crime_types_labelled df :
  has_column "Primary Type" (columns df) = true ->
  (forall r, In r (rows df) -> Primary_Type r <> None) ->
  exists types, App1.crime_types df = Done types.
Proof.
  intros HT Hlab. unfold App1.crime_types. rewrite HT. cbn zeta.
  destruct (App1.unique_na (map Primary_Type (rows df))) as [|a [|b l]] eqn:E; eauto.
  destruct (existsb App1.isna (a :: b :: l)) eqn:Ena; eauto.
  exfalso. apply existsb_isna in Ena. rewrite <- E in Ena.
  apply In_unique_na, in_map_iff in Ena. destruct Ena as (r & Er & Hr).
  exact (Hlab r Hr Er).
Qed.

Lemma crime_types_mixed df r r' t :
  has_column "Primary Type" (columns df) = true ->
  In r (rows df) -> Primary_Type r = None ->
  In r' (rows df) -> Primary_Type r' = Some t ->
  App1.crime_types df = Raised "TypeError".
Proof.
  intros HT Hr En Hr' Et. unfold App1.crime_types. rewrite HT. cbn zeta.
  set (values := App1.unique_na (map Primary_Type (rows df))).
  assert (Hn : In None values).
  { apply In_unique_na. rewrite <- En. now apply in_map. }
  assert (Hs : In (Some t) values).
  { apply In_unique_na. rewrite <- Et. now apply in_map. }
  assert (Ena : existsb App1.isna values = true) by now apply existsb_isna.
  destruct values as [|a [|b l]].
  - destruct Hn.
  - destruct Hn as [->|[]]. destruct Hs as [E|[]]. discriminate.
  - now rewrite Ena.
Qed.

(** The frame app1.py loads, and its filters on it: the rows app.py's
    filters keep on the same file. *)
Lemma app1_load_and_filters (csv : Csv) year_range selected_types :
  read_csv App1.path = Some csv ->
  has_column "Date" (csv_columns csv) = true ->
  has_column "Primary Type" (csv_columns csv) = true ->
  exists df1 flt1,
    App1.load_data read_csv parse_datetime = Done df1 /\
    has_column "Year" (columns df1) = true /\
    has_column "Primary Type" (columns df1) = true /\
    rows df1 = filter (fun r => match Date r with Some _ => true | None => false end)
                 (rows (ModernUI.prepare parse_datetime csv)) /\
    (forall r, In r (rows df1) -> Date r <> None /\ Year r <> None) /\
    App1.filtered df1 year_range selected_types = Done flt1 /\
    rows flt1 =
      rows (App.filtered (ModernUI.prepare parse_datetime csv)
              year_range selected_types).
Proof.
  intros Hread HD HT.
  set (all := ModernUI.frame_rows parse_datetime true 0 (csv_rows csv)).
  set (cols1 := set_column "DayOfWeek" (set_column "MonthName"
                  (set_column "Month" (set_column "Year" (csv_columns csv))))).
  set (df1 := App1.dropna_Date {| columns := cols1; rows := all |}).
  assert (Eload : App1.load_data read_csv parse_datetime = Done df1).
  { unfold App1.load_data. now rewrite Hread, HD. }
  assert (HY1 : has_column "Year" cols1 = true).
  { unfold cols1. do 3 apply has_column_set_column. apply has_column_set_column_same. }
  assert (HT1 : has_column "Primary Type" cols1 = true).
  { unfold cols1. do 4 apply has_column_set_column. exact HT. }
  assert (Hyear : forall r, In r all -> Year r = option_map dt_year (Date r)).
  { intros r Hr. exact (frame_rows_year parse_datetime _ _ _ Hr). }
  assert (Hdated : forall r, In r (rows df1) -> Date r <> None /\ Year r <> None).
  { intros r Hr. cbn [rows App1.dropna_Date df1] in Hr. apply filter_In in Hr.
    destruct Hr as [Hr Hd]. rewrite (Hyear r Hr).
    destruct (Date r); [split; discriminate|discriminate]. }
  assert (Erows : rows (ModernUI.prepare parse_datetime csv) = all).
  { unfold ModernUI.prepare. now rewrite HD. }
  assert (EY : has_column "Year" (columns (ModernUI.prepare parse_datetime csv)) = true).
  { unfold ModernUI.prepare. rewrite HD. apply has_column_set_column_same. }
  assert (ET : has_column "Primary Type"
                 (columns (ModernUI.prepare parse_datetime csv)) = true).
  { unfold ModernUI.prepare. rewrite HD. cbn [columns].
    now apply has_column_set_column. }
  assert (Hmask : forall r, In r all ->
            App1.ge_float (Year r) (fst year_range) &&
            App1.le_float (Year r) (snd year_range) = true ->
            match Date r with Some _ => true | None => false end = true).
  { intros r Hr Hm. rewrite (Hyear r Hr) in Hm. destruct (Date r); [reflexivity|].
    discriminate. }
  exists df1.
  destruct selected_types as [|t rest]; eexists;
    (split; [exact Eload|]); (split; [exact HY1|]); (split; [exact HT1|]);
    (split; [now rewrite Erows|]); (split; [exact Hdated|]);
    (split; [unfold App1.filtered; cbn [columns App1.dropna_Date Pandas.getitem_mask df1];
             rewrite HY1, ?HT1; reflexivity|]);
    rewrite app_filtered_eq, filtered_frame; cbn [rows];
    rewrite Erows; unfold passes; rewrite EY, ET;
    cbn [rows Pandas.getitem_mask App1.dropna_Date df1 mask_true].
  - rewrite (filter_filter_absorb _ _ all Hmask).
    apply filter_ext. intros r. rewrite float_mask_spec.
    cbn [type_allowed]. now rewrite andb_true_r.
  - rewrite (filter_filter_absorb _ _ all Hmask).
    rewrite filter_twice. apply filter_ext. intros r.
    rewrite float_mask_spec. now rewrite isin_spec.
Qed.

(** X13. app1.py, from the load to the filters, on a file with the
    [Date] and [Primary Type] columns.  Records without a date are
    dropped at load.  When each of the four preselected crime types
    occurs in a record with a date and no record with a date lacks a
    crime type, the sidebar and the filters succeed and the filters keep
    the rows that app.py's keep on the same file.  When no
    date parses, the bounds of the year slider are NaN and [int] raises
    [ValueError].  When a record with a date lacks a crime type and
    another has one, ordering the offered types, which app1.py does
    without [dropna], raises [TypeError]: the filters are not reached. *)
Theorem X13_app1_script (csv : Csv) year_range selected_types :
  read_csv App1.path = Some csv ->
  has_column "Date" (csv_columns csv) = true ->
  has_column "Primary Type" (csv_columns csv) = true ->
  let df := ModernUI.prepare parse_datetime csv in
  ((forall t, In t App1.default_types ->
      exists r, In r (rows df) /\ Date r <> None /\ Primary_Type r = Some t) ->
   (forall r, In r (rows df) -> Date r <> None -> Primary_Type r <> None) ->
   exists flt1,
     App1.script read_csv parse_datetime year_range selected_types = Done flt1 /\
     rows flt1 = rows (App.filtered df year_range selected_types)) /\
  ((forall r, In r (rows df) -> Date r = None) ->
   App1.script read_csv parse_datetime year_range selected_types =
     Raised "ValueError") /\
  (forall r r' t,
     In r (rows df) -> Date r <> None -> Primary_Type r = None ->
     In r' (rows df) -> Date r' <> None -> Primary_Type r' = Some t ->
     App1.script read_csv parse_datetime year_range selected_types =
       Raised "TypeError").
Proof.
  intros Hread HD HT df.
  destruct (app1_load_and_filters csv year_range selected_types Hread HD HT)
    as (df1 & flt1 & Eload & HY1 & HT1 & Erows & Hdated & Eflt & Eagree).
  fold df in Erows, Eagree.
  assert (Hin1 : forall r, In r (rows df1) <-> In r (rows df) /\ Date r <> None).
  { intros r. rewrite Erows, filter_In. split; intros [H1 H2]; split; auto.
    - destruct (Date r); [discriminate|discriminate].
    - destruct (Date r); [reflexivity|congruence]. }
  assert (Hbounds : forall r, In r (rows df1) ->
            exists lo hi, series_min (map Year (rows df1)) = Some lo /\
                          series_max (map Year (rows df1)) = Some hi).
  { intros r Hr. destruct (Hdated r Hr) as [_ Hy].
    destruct (Year r) as [y|] eqn:Ey; [|congruence].
    assert (Hy' : In y (dropna (map Year (rows df1)))).
    { apply In_dropna. rewrite <- Ey. now apply in_map. }
    unfold series_min, series_max.
    destruct (dropna (map Year (rows df1))); [destruct Hy'|eauto]. }
  unfold App1.script. rewrite Eload. unfold App1.sidebar. rewrite HY1.
  split; [|split].
  - intros Hdefault Hlab.
    destruct (Hdefault "THEFT"%string) as (r & Hr & Hd & _);
      [right; left; reflexivity|].
    assert (Hr1 : In r (rows df1)) by (apply Hin1; auto).
    destruct (Hbounds r Hr1) as (lo & hi & -> & ->).
    destruct (crime_types_labelled df1 HT1) as [types ->].
    + intros r0 Hr0. apply Hin1 in Hr0. now apply Hlab.
    + exists flt1. split; [exact Eflt|exact Eagree].
  - intros Hnone.
    assert (Hall : forall r, ~ In r (rows df1)).
    { intros r Hr. apply Hin1 in Hr. destruct Hr as [Hr Hd]. apply Hd. now apply Hnone. }
    assert (E : rows df1 = []).
    { destruct (rows df1) as [|r l]; [reflexivity|]. elim (Hall r). now left. }
    rewrite E. reflexivity.
  - intros r r' t Hr Hd En Hr' Hd' Et.
    assert (Hr1 : In r (rows df1)) by (apply Hin1; auto).
    assert (Hr1' : In r' (rows df1)) by (apply Hin1; auto).
    destruct (Hbounds r Hr1) as (lo & hi & -> & ->).
    now rewrite (crime_types_mixed df1 r r' t HT1 Hr1 En Hr1' Et).
Qed.

End Forecast.

Section Monthly.
Import Pandas Numpy Spec.

Lemma X13_app1_script_witness :
  Examples.four_types_in_downloads App1.path = Some Examples.csv_four_types /\
  has_column "Date" (csv_columns Examples.csv_four_types) = true /\
  has_column "Primary Type" (csv_columns Examples.csv_four_types) = true /\
  exists flt1,
    App1.script Examples.four_types_in_downloads Examples.parse_sample
      (2020, 2020) [ "THEFT"%string ] = Done flt1 /\
    rows flt1 =
      rows (App.filtered
              (ModernUI.prepare Examples.parse_sample Examples.csv_four_types)
              (2020, 2020) [ "THEFT"%string ]).
Proof.
  split; [reflexivity|]. split; [reflexivity|]. split; [reflexivity|].
  refine (proj1 (X13_app1_script Examples.four_types_in_downloads
                   Examples.parse_sample Examples.csv_four_types (2020, 2020)
                   [ "THEFT"%string ] eq_refl eq_refl eq_refl) _ _).
  - intros t Ht.
    assert (Hrow : forall k t0,
              nth_error App1.default_types k = Some t0 ->
              exists r,
                In r (rows (ModernUI.prepare Examples.parse_sample
                              Examples.csv_four_types)) /\
                Date r <> None /\ Primary_Type r = Some t0).
    { intros k t0 Hk.
      exists {| label := k; Date := Some Examples.jan_2020; Year := Some 2020;
                Primary_Type := Some t0 |}.
      split; [|split; [discriminate|reflexivity]].
      apply (nth_error_In _ k).
      do 4 (destruct k as [|k]; [injection Hk as <-; reflexivity|]).
      destruct k; discriminate. }
    apply In_nth_error in Ht. destruct Ht as [k Hk]. exact (Hrow k t Hk).
  - intros r Hr. apply In_nth_error in Hr. destruct Hr as [k Hk].
    do 5 (destruct k as [|k]; [injection Hk as <-; cbn; congruence|]).
    destruct k; discriminate.
Defined.

Lemma app1_filtered_rows df year_range selected_types flt r :
  App1.filtered df year_range selected_types = Done flt ->
  In r (rows flt) -> In r (rows df) /\ in_year_range year_range r = true.
Proof.
  unfold App1.filtered. destruct (has_column "Year" (columns df)); [|discriminate].
  destruct (truthy selected_types).
  - destruct (has_column "Primary Type" _); [|discriminate].
    intros [= <-]. cbn [rows Pandas.getitem_mask]. rewrite !filter_In.
    cbn [mask_true]. rewrite float_mask_spec. tauto.
  - intros [= <-]. cbn [rows Pandas.getitem_mask]. rewrite filter_In.
    cbn [mask_true]. now rewrite float_mask_spec.
Qed.

(** X14. The monthly summary of app1.py, for records whose year is that
    of their date and whose month is one of the twelve: its counts add
    up to the number of filtered records with a date, and it has at most
    twelve entries for each year of the selected range.  The forecast is
    fitted on more than twelve months only, so a range of a single year
    never gets one. *)
Theorem X14_forecast_needs_two_years df lo hi selected_types flt :
  (forall r t, In r (rows df) -> Date r = Some t ->
     Year r = Some (dt_year t) /\ 1 <= dt_month t <= 12) ->
  App1.filtered df (lo, hi) selected_types = Done flt ->
  let monthly := App1.monthly flt in
  ascending monthly /\
  zsum (map snd monthly) =
    Z.of_nat (length (filter (fun r => match Date r with
                                       | Some _ => true
                                       | None => false
                                       end) (rows flt))) /\
  Z.of_nat (length monthly) <= 12 * Z.max 0 (hi - lo + 1) /\
  (hi <= lo -> App1.forecast_fitted monthly = false).
Proof.
  intros Hwf Hflt monthly.
  set (keys := map (fun r => option_map App1.to_period_M (Date r)) (rows flt)).
  assert (Em : monthly = groupby_size keys).
  { unfold monthly, App1.monthly. apply sort_values_ascending, groupby_size_ascending. }
  assert (Hasc : ascending monthly) by (rewrite Em; apply groupby_size_ascending).
  assert (Hrange : forall e, In e monthly ->
            (lo - 1970) * 12 <= fst e <= (lo - 1970) * 12 + (12 * (hi - lo + 1) - 1)).
  { intros e He. rewrite Em in He. apply In_groupby_size in He.
    unfold keys in He. apply in_map_iff in He. destruct He as (r & Ek & Hr).
    destruct (app1_filtered_rows _ _ _ _ _ Hflt Hr) as [Hdf Hyr].
    destruct (Date r) as [t|] eqn:Ed; [|discriminate]. injection Ek as Ek.
    destruct (Hwf r t Hdf Ed) as [Ey Hmonth].
    unfold in_year_range in Hyr. rewrite Ey in Hyr. cbn [fst snd] in Hyr.
    apply andb_true_iff in Hyr. rewrite <- Ek. unfold App1.to_period_M. lia. }
  assert (Hlen : Z.of_nat (length monthly) <= 12 * Z.max 0 (hi - lo + 1)).
  { pose proof (ascending_length_bound monthly _ _ Hasc Hrange). lia. }
  split; [exact Hasc|]. split; [|split; [exact Hlen|]].
  - rewrite Em, zsum_groupby_size. f_equal. unfold keys.
    clear. induction (rows flt) as [|r l IH]; [reflexivity|].
    cbn [map filter]. destruct (Date r); cbn [option_map dropna length]; now rewrite IH.
  - intros Hone. unfold App1.forecast_fitted. apply Z.ltb_ge. lia.
Qed.

Lemma X14_forecast_needs_two_years_witness :
  (forall r t, In r (rows Examples.df_seven_years) -> Date r = Some t ->
     Year r = Some (dt_year t) /\ 1 <= dt_month t <= 12) /\
  App1.filtered Examples.df_seven_years (2024, 2024) [] =
    Done (getitem_mask Examples.df_seven_years
            (fun r => Some (App1.ge_float (Year r) 2024 && App1.le_float (Year r) 2024))) /\
  App1.forecast_fitted
    (App1.monthly
       (getitem_mask Examples.df_seven_years
          (fun r => Some (App1.ge_float (Year r) 2024 && App1.le_float (Year r) 2024))))
    = false.
Proof.
  assert (Hwf : forall r t, In r (rows Examples.df_seven_years) -> Date r = Some t ->
            Year r = Some (dt_year t) /\ 1 <= dt_month t <= 12).
  { intros r t Hr. cbn in Hr.
    repeat (destruct Hr as [<-|Hr]; [intros [= <-]; cbn; split; [reflexivity|lia]|]).
    destruct Hr. }
  split; [exact Hwf|]. split; [reflexivity|].
  apply (X14_forecast_needs_two_years Examples.df_seven_years 2024 2024 [] _ Hwf eq_refl).
  lia.
Defined.

End Monthly.

(* ================================================================== *)
(** * The values the widgets start with *)

Section Defaults.
Import Pandas Numpy Spec.

(** X15. The year slider starts on the last eight years in modernUI.py
    and the last six in app.py, up to the latest year of the frame.
    With that range and no crime type selected, the records of the
    latest year are kept, so the filtered frame is not empty, and the
    yearly summary has at most eight entries, six in app.py. *)
Theorem X15_default_year_range df :
  has_column "Year" (columns df) = true ->
  forall hi, ModernUI.max_y df = Some hi ->
    ModernUI.default_year_range df = Some (hi - 7, hi) /\
    App.default_year_range df = Some (hi - 5, hi) /\
    (exists r, In r (rows (ModernUI.filtered df (hi - 7, hi) [])) /\ Year r = Some hi) /\
    (exists r, In r (rows (App.filtered df (hi - 5, hi) [])) /\ Year r = Some hi) /\
    Z.of_nat (length (ModernUI.yearly (ModernUI.filtered df (hi - 7, hi) []))) <= 8 /\
    Z.of_nat (length (ModernUI.yearly (App.filtered df (hi - 5, hi) []))) <= 6.
Proof.
  intros HY hi Hhi.
  assert (Hkeep : forall lo, lo <= hi ->
            exists r, In r (rows (ModernUI.filtered df (lo, hi) [])) /\ Year r = Some hi).
  { intros lo Hlo. pose proof (series_max_In _ _ Hhi) as Hin.
    apply in_map_iff in Hin. destruct Hin as (r & E & Hr). exists r. split; [|exact E].
    rewrite filtered_frame. cbn [rows]. apply filter_In. split; [exact Hr|].
    unfold passes. rewrite HY. unfold in_year_range. rewrite E. cbn [fst snd].
    destruct (has_column "Primary Type" (columns df)); cbn [type_allowed];
      rewrite andb_true_r; apply andb_true_iff; lia. }
  assert (Hlen : forall lo n, hi - lo + 1 = n -> 0 <= n ->
            Z.of_nat (length (ModernUI.yearly (ModernUI.filtered df (lo, hi) []))) <= n).
  { intros lo n En Hn.
    assert (Hin : forall e, In e (ModernUI.yearly (ModernUI.filtered df (lo, hi) [])) ->
              lo <= fst e <= hi).
    { intros e He. rewrite yearly_groupby in He by (now rewrite filtered_columns).
      apply In_groupby_size, in_map_iff in He. destruct He as (r & Ey & Hr).
      apply filtered_in_range in Hr; [|exact HY].
      unfold in_year_range in Hr. rewrite Ey in Hr. cbn [fst snd] in Hr.
      apply andb_true_iff in Hr. lia. }
    pose proof (ascending_length_bound _ lo hi (yearly_ascending _) Hin). lia. }
  unfold ModernUI.default_year_range, App.default_year_range. rewrite Hhi.
  split; [reflexivity|]. split; [reflexivity|].
  split; [apply Hkeep; lia|]. split; [rewrite app_filtered_eq; apply Hkeep; lia|].
  split; [apply Hlen; lia|]. rewrite app_filtered_eq. apply Hlen; lia.
Qed.

Lemma X15_default_year_range_witness :
  has_column "Year" (columns Examples.df_seven_years) = true /\
  ModernUI.max_y Examples.df_seven_years = Some 2024 /\
  ModernUI.default_year_range Examples.df_seven_years = Some (2024 - 7, 2024).
Proof.
  split; [reflexivity|]. split; [reflexivity|].
  exact (proj1 (X15_default_year_range Examples.df_seven_years eq_refl 2024 eq_refl)).
Defined.

End Defaults.

(* ================================================================== *)
(** * The projection on doubles and in exact arithmetic *)

Section DoublesAndExact.
Import Pandas Numpy Spec.

Lemma round_below_half (v : Q) : (v < 1 # 2)%Q -> round v <= 0.
Proof.
  intros Hv. pose proof (Qfloor_le v) as Flo. pose proof (round_bounds v) as Hb.
  assert (inject_Z (Qfloor v) < inject_Z 1)%Q as H by (change (inject_Z 1) with 1%Q; lra).
  rewrite <- Zlt_Qlt in H.
  destruct (Z.eq_dec (Qfloor v) 0) as [E|Hne]; [|lia].
  unfold round. rewrite E.
  assert (((v - inject_Z 0) ?= (1 # 2))%Q = Lt) as ->; [|lia].
  apply (proj1 (Qlt_alt _ _)). change (inject_Z 0) with 0%Q. lra.
Qed.

(** X16. The projection as the script computes it on doubles, beside
    its reading in exact arithmetic.  Below five years both are [None].
    From five years on they are the same whenever the computed double
    rounds to the integer the exact value rounds to; where numpy is
    accurate, a negative exact value gives the projection 0.  The
    computed projection looks at the last five entries only.  At a tie
    the two can differ: for the counts 1, 1, 1, 2, 1 of 2016..2024 the
    exact value at 2026 is 3/2, rounded to 2, and a double just below
    3/2 is rounded to 1. *)
Theorem X16_doubles_and_exact (polyfit : list Z -> list Z -> float * float) yearly :
  ((length yearly < 5)%nat ->
   ModernUI.pred_2026_binary64 polyfit yearly = Done None /\
   ModernUI.pred_2026 yearly = None) /\
  (forall v,
     (5 <= length yearly)%nat ->
     float_value (ModernUI.line_at_2026 polyfit (tail 5 yearly)) = Some v ->
     round v = round (fitted_value (tail 5 yearly) 2026) ->
     ModernUI.pred_2026_binary64 polyfit yearly = Done (ModernUI.pred_2026 yearly)) /\
  ((5 <= length yearly)%nat ->
   accurate polyfit (tail 5 yearly) ->
   (fitted_value (tail 5 yearly) 2026 < 0)%Q ->
   ModernUI.pred_2026_binary64 polyfit yearly = Done (Some 0)) /\
  (forall older recent : list (Z * Z),
     length recent = 5%nat ->
     ModernUI.pred_2026_binary64 polyfit (older ++ recent) =
     ModernUI.pred_2026_binary64 polyfit recent) /\
  (ModernUI.pred_2026 Examples.halfway = Some 2 /\
   accurate Examples.polyfit_below_tie Examples.halfway /\
   ModernUI.pred_2026_binary64 Examples.polyfit_below_tie Examples.halfway =
     Done (Some 1)).
Proof.
  split; [|split; [|split; [|split]]].
  - intros H. split; [now apply pred_2026_binary64_none|now apply pred_2026_none].
  - intros v H Hv Er. rewrite (pred_2026_binary64_some polyfit yearly v H Hv).
    rewrite (pred_2026_some yearly H). now rewrite Er.
  - intros H (v & Hv & Hhi & Hlo) Hneg.
    rewrite (pred_2026_binary64_some polyfit yearly v H Hv). do 2 f_equal.
    unfold clamp. assert (round v <= 0) by (apply round_below_half; lra). lia.
  - intros older recent H5.
    assert (T : forall l : list (Z * Z), tail 5 (l ++ recent) = recent).
    { intros l. unfold tail. rewrite length_app, H5.
      replace (length l + 5 - 5)%nat with (length l + 0)%nat by lia.
      rewrite skipn_app, Nat.add_0_r, skipn_all.
      replace (length l - length l)%nat with 0%nat by lia. reflexivity. }
    unfold ModernUI.pred_2026_binary64. rewrite T.
    pose proof (T []) as T0. cbn [app] in T0. rewrite T0.
    rewrite length_app, H5.
    destruct (Z.leb_spec 5 (Z.of_nat (length older + 5))); [reflexivity|lia].
  - split; [vm_compute; reflexivity|]. split; [|vm_compute; reflexivity].
    eexists. split; [vm_compute; reflexivity|]. split; vm_compute; reflexivity.
Qed.

End DoublesAndExact.
